(** * The block state processor of go-abey: [core/state_processor.go]

    A shallow embedding of [Process], [ApplyTransaction] and
    [ReadTransaction].  The Go functions share four objects by pointer (the
    gas pool, the state database, the used-gas counter and the fee
    accumulator); here they are threaded explicitly, every function taking
    the objects it can reach and returning them next to its Go results.

    The packages [types], [state], [vm], [params] and [crypto] are
    collaborators: their types and functions are the fields of the classes
    [Primitives] and [Collaborators] below, the deny lists of package
    [types] are the class [DenyLists], and the interface [consensus.Engine]
    is the record [Engine]. *)

From Stdlib Require Import ZArith List Bool Lia.
From Stdlib.Init Require Import Byte.
Import ListNotations.
Local Open Scope Z_scope.

Set Implicit Arguments.

(** ** Machine integers and [math/big] *)

Definition MaxUint64 : Z := 18446744073709551615.

(** Go's [uint64] arithmetic wraps around. *)
Definition uint64 (x : Z) : Z := x mod 2 ^ 64.

(** The conversion [uint(x)] of an [int] on a 64-bit platform. *)
Definition uint_of_int (x : Z) : Z := x mod 2 ^ 64.

(** [x.Cmp(y)] of [math/big]: -1, 0 or +1. *)
Definition Cmp (x y : Z) : Z :=
  match x ?= y with
  | Lt => -1
  | Eq => 0
  | Gt => 1
  end.

(** ** Results of fallible calls *)

Inductive result (E A : Type) : Type :=
| Ok (a : A)
| Fail (e : E).

Arguments Ok {E A} a.
Arguments Fail {E A} e.

(** ** Opaque data of the collaborating packages *)

Class Primitives : Type := {
  Address : Type;        (* common.Address *)
  Hash : Type;           (* common.Hash *)
  Log : Type;            (* types.Log *)
  Bloom : Type;          (* types.Bloom *)
  error : Type;          (* a non-nil Go error *)
  Header : Type;         (* types.Header *)
  Transaction : Type;    (* types.Transaction *)
  Signer : Type;         (* types.Signer *)
  StateDB : Type;        (* state.StateDB *)
  ChainConfig : Type;    (* params.ChainConfig *)
  ChainContext : Type;   (* core.ChainContext, implemented by BlockChain *)
  VmConfig : Type;       (* vm.Config *)
  ChainReward : Type;    (* types.ChainReward *)
  zeroAddress : Address; (* the zero value of common.Address *)
  zeroHash : Hash        (* the zero value of common.Hash *)
}.

Section Data.
Context {P : Primitives}.

(** [types.Message], with one field per accessor that the processor calls
    and per argument of [types.NewMessage].  [Fee] may be a nil pointer. *)
Record Message : Type := NewMessage {
  From : Address;
  To : option Address;
  Payment : Address;
  Nonce : Z;
  Value : Z;
  Fee : option Z;
  Gas : Z;
  GasPrice : Z;
  Data : list byte;
  CheckNonce : bool
}.

(** Modelled from the spec: the block of the data model, a header (height,
    gas limit, hash) and the ordered transactions; [types.Block] is not
    among the sources. *)
Record Block : Type := {
  Block_Header : Header;
  Block_Transactions : list Transaction
}.

(** Modelled from the spec: the result of the bytecode executor,
    (ReturnData, GasUsed, Reverted?); [core.ExecutionResult] is not among
    the sources.  [Failed] is what [result.Failed()] returns. *)
Record ExecutionResult : Type := {
  UsedGas : Z;
  Failed : bool;
  ReturnData : list byte
}.

(** [types.Receipt], with the fields the processor assigns. *)
Record Receipt : Type := {
  PostState : list byte;
  Status : Z;
  CumulativeGasUsed : Z;
  Bloom_ : Bloom;
  Logs : list Log;
  TxHash : Hash;
  ContractAddress : Address;
  GasUsed : Z;
  BlockHash_ : Hash;
  BlockNumber : option Z;
  TransactionIndex : Z
}.

(** Assignments to single fields of a receipt. *)
Definition set_TxHash (h : Hash) (r : Receipt) : Receipt :=
  {| PostState := PostState r; Status := Status r;
     CumulativeGasUsed := CumulativeGasUsed r; Bloom_ := Bloom_ r;
     Logs := Logs r; TxHash := h; ContractAddress := ContractAddress r;
     GasUsed := GasUsed r; BlockHash_ := BlockHash_ r;
     BlockNumber := BlockNumber r; TransactionIndex := TransactionIndex r |}.

Definition set_GasUsed (g : Z) (r : Receipt) : Receipt :=
  {| PostState := PostState r; Status := Status r;
     CumulativeGasUsed := CumulativeGasUsed r; Bloom_ := Bloom_ r;
     Logs := Logs r; TxHash := TxHash r; ContractAddress := ContractAddress r;
     GasUsed := g; BlockHash_ := BlockHash_ r;
     BlockNumber := BlockNumber r; TransactionIndex := TransactionIndex r |}.

Definition set_ContractAddress (a : Address) (r : Receipt) : Receipt :=
  {| PostState := PostState r; Status := Status r;
     CumulativeGasUsed := CumulativeGasUsed r; Bloom_ := Bloom_ r;
     Logs := Logs r; TxHash := TxHash r; ContractAddress := a;
     GasUsed := GasUsed r; BlockHash_ := BlockHash_ r;
     BlockNumber := BlockNumber r; TransactionIndex := TransactionIndex r |}.

Definition set_Logs (l : list Log) (r : Receipt) : Receipt :=
  {| PostState := PostState r; Status := Status r;
     CumulativeGasUsed := CumulativeGasUsed r; Bloom_ := Bloom_ r;
     Logs := l; TxHash := TxHash r; ContractAddress := ContractAddress r;
     GasUsed := GasUsed r; BlockHash_ := BlockHash_ r;
     BlockNumber := BlockNumber r; TransactionIndex := TransactionIndex r |}.

Definition set_Bloom (b : Bloom) (r : Receipt) : Receipt :=
  {| PostState := PostState r; Status := Status r;
     CumulativeGasUsed := CumulativeGasUsed r; Bloom_ := b;
     Logs := Logs r; TxHash := TxHash r; ContractAddress := ContractAddress r;
     GasUsed := GasUsed r; BlockHash_ := BlockHash_ r;
     BlockNumber := BlockNumber r; TransactionIndex := TransactionIndex r |}.

Definition set_BlockHash (h : Hash) (r : Receipt) : Receipt :=
  {| PostState := PostState r; Status := Status r;
     CumulativeGasUsed := CumulativeGasUsed r; Bloom_ := Bloom_ r;
     Logs := Logs r; TxHash := TxHash r; ContractAddress := ContractAddress r;
     GasUsed := GasUsed r; BlockHash_ := h;
     BlockNumber := BlockNumber r; TransactionIndex := TransactionIndex r |}.

Definition set_BlockNumber (n : Z) (r : Receipt) : Receipt :=
  {| PostState := PostState r; Status := Status r;
     CumulativeGasUsed := CumulativeGasUsed r; Bloom_ := Bloom_ r;
     Logs := Logs r; TxHash := TxHash r; ContractAddress := ContractAddress r;
     GasUsed := GasUsed r; BlockHash_ := BlockHash_ r;
     BlockNumber := Some n; TransactionIndex := TransactionIndex r |}.

Definition set_TransactionIndex (i : Z) (r : Receipt) : Receipt :=
  {| PostState := PostState r; Status := Status r;
     CumulativeGasUsed := CumulativeGasUsed r; Bloom_ := Bloom_ r;
     Logs := Logs r; TxHash := TxHash r; ContractAddress := ContractAddress r;
     GasUsed := GasUsed r; BlockHash_ := BlockHash_ r;
     BlockNumber := BlockNumber r; TransactionIndex := i |}.

(** Modelled from the spec: the execution context of section 4.2, a pure
    function of (message, header, chain context) that captures the sender,
    the recipient, the value and the gas price; [core.NewEVMContext] is
    not among the sources. *)
Record Context : Type := {
  Origin : Address;
  ctxTo : option Address;
  ctxValue : Z;
  ctxGasPrice : Z;
  ctxHeader : Header;
  ctxChain : ChainContext
}.

Definition NewEVMContext (msg : Message) (header : Header)
    (chain : ChainContext) : Context :=
  {| Origin := From msg;
     ctxTo := To msg;
     ctxValue := Value msg;
     ctxGasPrice := GasPrice msg;
     ctxHeader := header;
     ctxChain := chain |}.

(** [vm.EVM] as [vm.NewEVM] builds it.  The state database it points to is
    the shared one and is threaded next to it. *)
Record EVM : Type := NewEVM {
  EVM_Context : Context;
  EVM_chainConfig : ChainConfig;
  EVM_vmConfig : VmConfig
}.

(** The interface [consensus.Engine], of which the processor calls
    [Finalize] alone; the first of its results, which [Process] discards, is
    left out, and the state database it may write is returned. *)
Record Engine : Type := {
  Finalize :
    ChainContext -> Header -> StateDB -> list Transaction -> list Receipt -> Z ->
    result error ChainReward * StateDB
}.
End Data.

(** ** Functions of the collaborating packages *)

Class Collaborators {P : Primitives} : Type := {
  (* types.Header *)
  Number : Header -> Z;
  GasLimit : Header -> Z;
  HeaderHash : Header -> Hash;
  (* types.Transaction *)
  MakeSigner : ChainConfig -> Z -> Signer;
  AsMessage : Transaction -> Signer -> Message * option error;
  Tx_Hash : Transaction -> Hash;
  Tx_HashOld : Transaction -> Hash;
  Tx_Nonce : Transaction -> Z;
  (* params.ChainConfig *)
  IsTIP10 : ChainConfig -> Z -> bool;
  (* state.StateDB *)
  Prepare : Hash -> Hash -> Z -> StateDB -> StateDB;
  Finalise : bool -> StateDB -> StateDB;
  GetLogs : StateDB -> Hash -> list Log;
  StateDB_BlockHash : StateDB -> Hash;
  TxIndex : StateDB -> Z;
  (* core.ApplyMessage: the bytecode executor, which has the gas pool and
     the state database at its disposal *)
  ApplyMessage :
    EVM -> Message -> Z -> StateDB -> result error ExecutionResult * Z * StateDB;
  (* crypto, types *)
  CreateAddress : Address -> Z -> Address;
  LogsBloom : list Log -> Bloom;
  emptyBloom : Bloom
}.

(** The two deny lists of package [types]; [None] is a nil error. *)
Class DenyLists {P : Primitives} : Type := {
  ForbidAddress : Address -> option error;
  ForbidAddress2 : Address -> option error
}.

Section StateProcessor.
Context {P : Primitives} {C : Collaborators} {D : DenyLists}.

(** *** Accessors of [types.Block] *)

Definition Block_Number (b : Block) : Z := Number (Block_Header b).
Definition Block_GasLimit (b : Block) : Z := GasLimit (Block_Header b).
Definition Block_Hash (b : Block) : Hash := HeaderHash (Block_Header b).

(** *** [core.GasPool] *)

(** Modelled from the spec: [AddGas(n)] increases the capacity by [n]
    (section 4.1); [core/gaspool.go] is not among the sources. *)
Definition AddGas (gp amount : Z) : Z := gp + amount.

(** *** [types.NewReceipt] and [types.CreateBloom] *)

Definition ReceiptStatusFailed : Z := 0.
Definition ReceiptStatusSuccessful : Z := 1.

(** Modelled from the spec: a fresh receipt carries the success flag and
    the cumulative gas used, every other field at its zero value;
    [types.NewReceipt] is not among the sources. *)
Definition NewReceipt (root : list byte) (failed : bool)
    (cumulativeGasUsed : Z) : Receipt :=
  {| PostState := root;
     Status := if failed then ReceiptStatusFailed else ReceiptStatusSuccessful;
     CumulativeGasUsed := cumulativeGasUsed;
     Bloom_ := emptyBloom;
     Logs := [];
     TxHash := zeroHash;
     ContractAddress := zeroAddress;
     GasUsed := 0;
     BlockHash_ := zeroHash;
     BlockNumber := None;
     TransactionIndex := 0 |}.

(** Modelled from the spec: the bloom filter is computed over the logs of
    the receipts it is given; [types.CreateBloom] is not among the
    sources. *)
Definition CreateBloom (receipts : list Receipt) : Bloom :=
  LogsBloom (concat (map Logs receipts)).

(** *** The objects [Process] shares with [ApplyTransaction] *)

Record Store : Type := {
  gp : Z;              (* *GasPool *)
  statedb : StateDB;   (* *state.StateDB *)
  usedGas : Z;         (* *uint64 *)
  feeAmount : Z        (* *big.Int *)
}.

(** *** [ApplyTransaction] *)

Definition ApplyTransaction (config : ChainConfig) (bc : ChainContext)
    (header : Header) (tx : Transaction) (cfg : VmConfig) (st : Store)
    : result error Receipt * Store :=
  let (msg, err) := AsMessage tx (MakeSigner config (Number header)) in
  match err with
  | Some e => (Fail e, st)
  | None =>
    let forbidden :=
      if Cmp (Number header) 6638000 >? 0 then
        match ForbidAddress (From msg) with
        | Some e => Some e
        | None =>
          if Cmp (Number header) 24642000 >? 0 then ForbidAddress2 (From msg)
          else None
        end
      else None in
    match forbidden with
    | Some e => (Fail e, st)
    | None =>
      let context := NewEVMContext msg header bc in
      let vmenv := NewEVM context config cfg in
      match ApplyMessage vmenv msg (gp st) (statedb st) with
      | (Fail e, gp1, db1) =>
        (Fail e, {| gp := gp1; statedb := db1;
                    usedGas := usedGas st; feeAmount := feeAmount st |})
      | (Ok res, gp1, db1) =>
        let root : list byte := [] in
        let db2 := Finalise true db1 in
        let usedGas' := uint64 (usedGas st + UsedGas res) in
        let gasFee := UsedGas res * GasPrice msg in
        let feeAmount1 := gasFee + feeAmount st in
        let feeAmount2 :=
          match Fee msg with
          | Some fee => fee + feeAmount1
          | None => feeAmount1
          end in
        let txhash := Tx_HashOld tx in
        let txhash := if IsTIP10 config (Number header) then Tx_Hash tx else txhash in
        let receipt := NewReceipt root (Failed res) usedGas' in
        let receipt := set_TxHash txhash receipt in
        let receipt := set_GasUsed (UsedGas res) receipt in
        let receipt :=
          match To msg with
          | None =>
            set_ContractAddress
              (CreateAddress (Origin (EVM_Context vmenv)) (Tx_Nonce tx)) receipt
          | Some _ => receipt
          end in
        let receipt := set_Logs (GetLogs db2 txhash) receipt in
        let receipt := set_Bloom (CreateBloom [receipt]) receipt in
        let receipt := set_BlockHash (StateDB_BlockHash db2) receipt in
        let receipt := set_BlockNumber (Number header) receipt in
        let receipt := set_TransactionIndex (uint_of_int (TxIndex db2)) receipt in
        (Ok receipt, {| gp := gp1; statedb := db2;
                        usedGas := usedGas'; feeAmount := feeAmount2 |})
      end
    end
  end.

(** *** [ReadTransaction] *)

Definition ReadTransaction (config : ChainConfig) (bc : ChainContext)
    (db : StateDB) (header : Header) (tx : Transaction) (cfg : VmConfig)
    : result error (list byte * Z) * StateDB :=
  let (msg, err) := AsMessage tx (MakeSigner config (Number header)) in
  let msgCopy :=
    NewMessage (From msg) (To msg) (Payment msg) 0 (Value msg) (Fee msg)
               (Gas msg) (GasPrice msg) (Data msg) false in
  match err with
  | Some e => (Fail e, db)
  | None =>
    let forbidden :=
      if Cmp (Number header) 6638000 >? 0 then ForbidAddress (From msgCopy)
      else None in
    match forbidden with
    | Some e => (Fail e, db)
    | None =>
      let context := NewEVMContext msgCopy header bc in
      let vmenv := NewEVM context config cfg in
      let gp0 := AddGas 0 MaxUint64 in
      match ApplyMessage vmenv msg gp0 db with
      | (Fail e, _, db1) => (Fail e, db1)
      | (Ok res, _, db1) => (Ok (ReturnData res, UsedGas res), db1)
      end
    end
  end.

(** *** [StateProcessor] and [Process] *)

Record StateProcessor : Type := NewStateProcessor {
  config : ChainConfig;   (* chain configuration options *)
  bc : ChainContext;      (* canonical block chain *)
  engine : Engine         (* consensus engine used for block rewards *)
}.

(** The body of the loop over [block.Transactions()], from index [i] on. *)
Fixpoint Process_loop (fp : StateProcessor) (block : Block) (header : Header)
    (cfg : VmConfig) (txs : list Transaction) (i : Z)
    (receipts : list Receipt) (allLogs : list Log) (st : Store)
    : result error (list Receipt * list Log) * Store :=
  match txs with
  | [] => (Ok (receipts, allLogs), st)
  | tx :: rest =>
    let txhash := Tx_HashOld tx in
    let txhash :=
      if IsTIP10 (config fp) (Block_Number block) then Tx_Hash tx else txhash in
    let st1 :=
      {| gp := gp st;
         statedb := Prepare txhash (Block_Hash block) i (statedb st);
         usedGas := usedGas st;
         feeAmount := feeAmount st |} in
    match ApplyTransaction (config fp) (bc fp) header tx cfg st1 with
    | (Fail err, st2) => (Fail err, st2)
    | (Ok receipt, st2) =>
      Process_loop fp block header cfg rest (i + 1)
                   (receipts ++ [receipt]) (allLogs ++ Logs receipt) st2
    end
  end.

Definition Process (fp : StateProcessor) (block : Block) (db : StateDB)
    (cfg : VmConfig)
    : result error (list Receipt * list Log * Z * ChainReward) * StateDB :=
  let st0 :=
    {| gp := AddGas 0 (Block_GasLimit block);
       statedb := db;
       usedGas := 0;
       feeAmount := 0 |} in
  let header := Block_Header block in
  match Process_loop fp block header cfg (Block_Transactions block) 0 [] [] st0 with
  | (Fail err, st) => (Fail err, statedb st)
  | (Ok (receipts, allLogs), st) =>
    match Finalize (engine fp) (bc fp) header (statedb st) (Block_Transactions block)
                   receipts (feeAmount st) with
    | (Fail err, db') => (Fail err, db')
    | (Ok infos, db') => (Ok (receipts, allLogs, usedGas st, infos), db')
    end
  end.

(** *** Vocabulary of the specification *)

(** The two height thresholds of the deny lists. *)
Definition H1 : Z := 6638000.
Definition H2 : Z := 24642000.

(** The Hard-Fork Policy Gate in the words of the specification: above
    [H1] the first deny list applies, above [H2] the second one as well. *)
Definition policy_gate (height : Z) (sender : Address) : option error :=
  if H1 <? height then
    match ForbidAddress sender with
    | Some e => Some e
    | None => if H2 <? height then ForbidAddress2 sender else None
    end
  else None.

(** The transaction hash that the TIP10 gate selects at a height. *)
Definition gate_TxHash (config : ChainConfig) (height : Z) (tx : Transaction)
    : Hash :=
  if IsTIP10 config height then Tx_Hash tx else Tx_HashOld tx.

(** The message recovered from a transaction under a header. *)
Definition recovered (config : ChainConfig) (header : Header)
    (tx : Transaction) : Message :=
  fst (AsMessage tx (MakeSigner config (Number header))).

Definition explicit_fee (msg : Message) : Z :=
  match Fee msg with
  | Some fee => fee
  | None => 0
  end.

Definition Zsum (l : list Z) : Z := fold_right Z.add 0 l.

(** Sum of gas_used * gas_price over a block, the gas used being the one
    its receipts record. *)
Definition gas_fees (config : ChainConfig) (header : Header)
    (txs : list Transaction) (receipts : list Receipt) : Z :=
  Zsum (map (fun p => GasUsed (snd p) * GasPrice (recovered config header (fst p)))
            (combine txs receipts)).

(** Sum of the explicit fees of a block's transactions. *)
Definition explicit_fees (config : ChainConfig) (header : Header)
    (txs : list Transaction) : Z :=
  Zsum (map (fun tx => explicit_fee (recovered config header tx)) txs).

(** The receipt of section 4.4, step 6, for a transaction whose message
    [msg] the executor ran with result [res], [cumulative] being the gas
    used in the block so far and [db] the state database after the
    commit. *)
Definition receipt_of (config : ChainConfig) (header : Header)
    (tx : Transaction) (msg : Message) (res : ExecutionResult)
    (cumulative : Z) (db : StateDB) : Receipt :=
  let h := gate_TxHash config (Number header) tx in
  {| PostState := [];
     Status := if Failed res then ReceiptStatusFailed else ReceiptStatusSuccessful;
     CumulativeGasUsed := cumulative;
     Bloom_ := LogsBloom (GetLogs db h);
     Logs := GetLogs db h;
     TxHash := h;
     ContractAddress :=
       match To msg with
       | None => CreateAddress (From msg) (Tx_Nonce tx)
       | Some _ => zeroAddress
       end;
     GasUsed := UsedGas res;
     BlockHash_ := StateDB_BlockHash db;
     BlockNumber := Some (Number header);
     TransactionIndex := uint_of_int (TxIndex db) |}.

(** The store on which [Process] calls [ApplyTransaction] for the
    transaction of index [i]: the state database has been prepared. *)
Definition prepared (fp : StateProcessor) (block : Block) (i : Z)
    (tx : Transaction) (st : Store) : Store :=
  {| gp := gp st;
     statedb := Prepare (gate_TxHash (config fp) (Block_Number block) tx)
                        (Block_Hash block) i (statedb st);
     usedGas := usedGas st;
     feeAmount := feeAmount st |}.

(** [Applied fp block cfg i txs st receipts st']: applying the
    transactions [txs], in this order and with indices [i], [i+1], ...,
    each on the store its predecessor left, succeeds for all of them,
    yields [receipts] in the same order and leaves the store [st']. *)
Inductive Applied (fp : StateProcessor) (block : Block) (cfg : VmConfig)
    : Z -> list Transaction -> Store -> list Receipt -> Store -> Prop :=
| Applied_nil : forall i st, Applied fp block cfg i [] st [] st
| Applied_cons : forall i tx rest st r st1 rs st2,
    ApplyTransaction (config fp) (bc fp) (Block_Header block) tx cfg
                     (prepared fp block i tx st) = (Ok r, st1) ->
    Applied fp block cfg (i + 1) rest st1 rs st2 ->
    Applied fp block cfg i (tx :: rest) st (r :: rs) st2.

(** The store with which [Process] starts a block. *)
Definition initial_store (block : Block) (db : StateDB) : Store :=
  {| gp := Block_GasLimit block; statedb := db; usedGas := 0; feeAmount := 0 |}.

(** [Process] reaches the transaction [tx], which [before] precedes in
    the block, with the store [st]: all of [before] has been applied. *)
Definition reaches (fp : StateProcessor) (block : Block) (cfg : VmConfig)
    (db : StateDB) (before : list Transaction) (tx : Transaction)
    (st : Store) : Prop :=
  exists after receipts,
    Block_Transactions block = before ++ tx :: after /\
    Applied fp block cfg 0 before (initial_store block db) receipts st.

(** What the state database must respect for the index stamped by
    [Prepare] to be the one [TxIndex] reports when the receipt is built. *)
Record keeps_TxIndex : Prop := {
  TxIndex_Prepare : forall h b i s, TxIndex (Prepare h b i s) = i;
  TxIndex_ApplyMessage : forall vmenv msg g s,
    TxIndex (snd (ApplyMessage vmenv msg g s)) = TxIndex s;
  TxIndex_Finalise : forall b s, TxIndex (Finalise b s) = TxIndex s
}.

(** The copy that [ReadTransaction] builds. *)
Definition message_copy (msg : Message) : Message :=
  NewMessage (From msg) (To msg) (Payment msg) 0 (Value msg) (Fee msg)
             (Gas msg) (GasPrice msg) (Data msg) false.

(** The outcome of [ReadTransaction] when the executor is run on [m] in
    the environment [vmenv] with a full gas pool. *)
Definition simulate (vmenv : EVM) (m : Message) (db : StateDB)
    : result error (list byte * Z) * StateDB :=
  match ApplyMessage vmenv m MaxUint64 db with
  | (Fail e, _, db1) => (Fail e, db1)
  | (Ok res, _, db1) => (Ok (ReturnData res, UsedGas res), db1)
  end.

(** The specification's lock-step property: at every height
    [ReadTransaction] rejects a recovered sender at its gate exactly when
    the policy gate of [ApplyTransaction] does. *)
Definition read_gate (height : Z) (sender : Address) : option error :=
  if H1 <? height then ForbidAddress sender else None.

Definition gates_in_lock_step : Prop :=
  forall height sender,
    read_gate height sender = None <-> policy_gate height sender = None.

(** *** Vocabulary of the further properties *)

(** The gas that a list of receipts records as used, summed. *)
Definition gas_sum (receipts : list Receipt) : Z := Zsum (map GasUsed receipts).

(** The gas accounting that the processor relies on without checking it: a
    successful run of the executor on a pool of [g] units reports a gas use
    between 0 and [g] and leaves the pool at [g] minus that use. *)
Definition executor_debits : Prop :=
  forall vmenv msg g s res g1 s1,
    0 <= g ->
    ApplyMessage vmenv msg g s = (Ok res, g1, s1) ->
    0 <= UsedGas res <= g /\ g1 = g - UsedGas res.

(** What the state database must respect for the block hash stamped by
    [Prepare] to be the one [BlockHash] reports when the receipt is built. *)
Record keeps_BlockHash : Prop := {
  BlockHash_Prepare : forall h b i s, StateDB_BlockHash (Prepare h b i s) = b;
  BlockHash_ApplyMessage : forall vmenv msg g s,
    StateDB_BlockHash (snd (ApplyMessage vmenv msg g s)) = StateDB_BlockHash s;
  BlockHash_Finalise : forall b s,
    StateDB_BlockHash (Finalise b s) = StateDB_BlockHash s
}.

(** A processor and a block with another engine and other transactions. *)
Definition with_engine (fp : StateProcessor) (e : Engine) : StateProcessor :=
  NewStateProcessor (config fp) (bc fp) e.

Definition with_transactions (block : Block) (txs : list Transaction) : Block :=
  {| Block_Header := Block_Header block; Block_Transactions := txs |}.

End StateProcessor.

(** ** The light-client API backend: [les/api_backend.go]

    The lookups by block number of [LesApiBackend].  The light chain, the
    state constructor of package [light] and the two distinguished block
    numbers of package [rpc] are collaborators; a Go context is passed on to
    them as it is. *)

(** [rpc.LatestBlockNumber] and [rpc.PendingBlockNumber]. *)
Class RpcNumbers : Type := {
  LatestBlockNumber : Z;
  PendingBlockNumber : Z
}.

Section Les.
Context {P : Primitives} {C : Collaborators} {R : RpcNumbers}.
Variable Ctx : Type.   (* context.Context *)

(** What the backend reaches through [b.abey]: the light chain's current
    header and its on-demand lookups, and [light.NewState] on the backend's
    retriever.  A nil pointer is [None], a nil error is [None]. *)
Record LesApiBackend : Type := {
  CurrentHeader : option Header;
  GetHeaderByNumberOdr : Ctx -> Z -> option Header * option error;
  GetBlockByHash : Ctx -> Hash -> option Block * option error;
  light_NewState : Ctx -> Header -> StateDB
}.

Definition HeaderByNumber (b : LesApiBackend) (ctx : Ctx) (blockNr : Z)
    : option Header * option error :=
  if (blockNr =? LatestBlockNumber) || (blockNr =? PendingBlockNumber) then
    (CurrentHeader b, None)
  else GetHeaderByNumberOdr b ctx (uint64 blockNr).

Definition GetBlock (b : LesApiBackend) (ctx : Ctx) (blockHash : Hash)
    : option Block * option error :=
  GetBlockByHash b ctx blockHash.

Definition BlockByNumber (b : LesApiBackend) (ctx : Ctx) (blockNr : Z)
    : option Block * option error :=
  let (header, err) := HeaderByNumber b ctx blockNr in
  match header, err with
  | Some h, None => GetBlock b ctx (HeaderHash h)
  | _, _ => (None, err)
  end.

Definition StateAndHeaderByNumber (b : LesApiBackend) (ctx : Ctx) (blockNr : Z)
    : option StateDB * option Header * option error :=
  let (header, err) := HeaderByNumber b ctx blockNr in
  match header, err with
  | Some h, None => (Some (light_NewState b ctx h), header, None)
  | _, _ => (None, None, err)
  end.

(** A backend with other on-demand lookups. *)
Definition with_lookups (b : LesApiBackend)
    (byNumber : Ctx -> Z -> option Header * option error) : LesApiBackend :=
  {| CurrentHeader := CurrentHeader b;
     GetHeaderByNumberOdr := byNumber;
     GetBlockByHash := GetBlockByHash b;
     light_NewState := light_NewState b |}.

End Les.

(** ** A miniature chain

    Concrete collaborators on which the processor can be run: addresses,
    hashes and logs are integers, the state database keeps one nonce per
    address in a pending and in a committed layer, and the executor checks
    and bumps the sender's nonce, charges a flat 21000 gas and treats a
    payload that starts with the byte [0xfd] as a reverting call. *)

Module Mini.

Inductive failure : Type :=
| InvalidSender
| ForbiddenAddress
| ForbiddenAddress2
| NonceMismatch
| GasLimitReached
| IntrinsicGasTooLow
| NegativeFees.

Record header : Type := {
  number : Z;
  gasLimit : Z;
  hash : Z
}.

Record tx : Type := {
  tx_from : option Z;   (* None: the signature does not recover *)
  tx_to : option Z;
  tx_payment : Z;
  tx_nonce : Z;
  tx_value : Z;
  tx_fee : option Z;
  tx_gas : Z;
  tx_gasPrice : Z;
  tx_data : list byte;
  tx_hash : Z;
  tx_hashOld : Z
}.

Record state : Type := {
  thash : Z;
  bhash : Z;
  txIndex : Z;
  logs : list (Z * Z);        (* (transaction hash, log), oldest first *)
  pending : list (Z * Z);     (* (address, nonce), newest first *)
  committed : list (Z * Z)
}.

Definition prims : Primitives :=
  {| Address := Z; Hash := Z; Log := Z; Bloom := Z; error := failure;
     Header := header; Transaction := tx; Signer := unit; StateDB := state;
     ChainConfig := Z; ChainContext := unit; VmConfig := unit;
     ChainReward := Z; zeroAddress := 0; zeroHash := 0 |}.

#[local] Existing Instance prims.

Fixpoint nonce_of (a : Z) (l : list (Z * Z)) : Z :=
  match l with
  | [] => 0
  | (b, n) :: l' => if a =? b then n else nonce_of a l'
  end.

Definition asMessage (t : tx) (_ : unit) : Message * option failure :=
  match tx_from t with
  | Some a =>
    (NewMessage a (tx_to t) (tx_payment t) (tx_nonce t) (tx_value t)
                (tx_fee t) (tx_gas t) (tx_gasPrice t) (tx_data t) true,
     None)
  | None =>
    (NewMessage 0 None 0 0 0 None 0 0 [] false, Some InvalidSender)
  end.

Definition reverts (data : list byte) : bool :=
  match data with
  | xfd :: _ => true
  | _ => false
  end.

Definition applyMessage (vmenv : EVM) (msg : Message) (g : Z) (s : state)
    : result failure ExecutionResult * Z * state :=
  if CheckNonce msg && negb (Nonce msg =? nonce_of (From msg) (pending s)) then
    (Fail NonceMismatch, g, s)
  else if g <? Gas msg then (Fail GasLimitReached, g, s)
  else if Gas msg <? 21000 then (Fail IntrinsicGasTooLow, g, s)
  else
    let bumped := (From msg, nonce_of (From msg) (pending s) + 1) :: pending s in
    if reverts (Data msg) then
      (Ok {| UsedGas := 21000; Failed := true; ReturnData := [] |},
       g - 21000,
       {| thash := thash s; bhash := bhash s; txIndex := txIndex s;
          logs := logs s; pending := bumped; committed := committed s |})
    else
      (Ok {| UsedGas := 21000; Failed := false; ReturnData := Data msg |},
       g - 21000,
       {| thash := thash s; bhash := bhash s; txIndex := txIndex s;
          logs := logs s ++ [(thash s, Value msg)];
          pending := bumped; committed := committed s |}).

Definition prepare (h b i : Z) (s : state) : state :=
  {| thash := h; bhash := b; txIndex := i;
     logs := logs s; pending := pending s; committed := committed s |}.

Definition finalise (_ : bool) (s : state) : state :=
  {| thash := thash s; bhash := bhash s; txIndex := txIndex s;
     logs := logs s; pending := pending s; committed := pending s |}.

Definition getLogs (s : state) (h : Z) : list Z :=
  map snd (filter (fun p => fst p =? h) (logs s)).

Definition finalize (_ : unit) (_ : header) (s : state) (_ : list tx)
    (_ : list Receipt) (fee : Z) : result failure Z * state :=
  if fee <? 0 then (Fail NegativeFees, s) else (Ok fee, s).

Definition collaborators : Collaborators :=
  {| Number := number; GasLimit := gasLimit; HeaderHash := hash;
     MakeSigner := fun _ _ => tt;
     AsMessage := asMessage;
     Tx_Hash := tx_hash; Tx_HashOld := tx_hashOld; Tx_Nonce := tx_nonce;
     IsTIP10 := fun tip10 n => tip10 <=? n;
     Prepare := prepare; Finalise := finalise; GetLogs := getLogs;
     StateDB_BlockHash := bhash; TxIndex := txIndex;
     ApplyMessage := applyMessage;
     CreateAddress := fun a n => a * 1000 + n + 1;
     LogsBloom := fold_right Z.lor 0;
     emptyBloom := 0 |}.

Definition denyLists : DenyLists :=
  {| ForbidAddress := fun a =>
       if a =? 666 then Some ForbiddenAddress else None;
     ForbidAddress2 := fun a =>
       if a =? 777 then Some ForbiddenAddress2 else None |}.

(** Deny lists that reject nobody. *)
Definition noDenyLists : DenyLists :=
  {| ForbidAddress := fun _ => None; ForbidAddress2 := fun _ => None |}.

#[local] Existing Instance collaborators.
#[local] Existing Instance denyLists.

(** Sample data. *)

Definition tip10 : Z := 100.

(** An engine whose reward summary is the fee total it is handed. *)
Definition rewards : Engine := {| Finalize := finalize |}.

Definition processor : StateProcessor := NewStateProcessor tip10 tt rewards.

Definition genesis : state :=
  {| thash := 0; bhash := 0; txIndex := 0; logs := []; pending := [];
     committed := [] |}.

Definition header_at (n limit : Z) : header :=
  {| number := n; gasLimit := limit; hash := 9000 + n |}.

(** A plain transfer from account 1, with an explicit fee. *)
Definition transfer : tx :=
  {| tx_from := Some 1; tx_to := Some 2; tx_payment := 8; tx_nonce := 0;
     tx_value := 5; tx_fee := Some 3; tx_gas := 21000; tx_gasPrice := 2;
     tx_data := []; tx_hash := 101; tx_hashOld := 201 |}.

(** A call from account 1 that reverts in the executor. *)
Definition reverting : tx :=
  {| tx_from := Some 1; tx_to := Some 3; tx_payment := 0; tx_nonce := 1;
     tx_value := 0; tx_fee := None; tx_gas := 30000; tx_gasPrice := 1;
     tx_data := [xfd]; tx_hash := 102; tx_hashOld := 202 |}.

(** A contract creation from account 4. *)
Definition creation : tx :=
  {| tx_from := Some 4; tx_to := None; tx_payment := 0; tx_nonce := 0;
     tx_value := 7; tx_fee := None; tx_gas := 25000; tx_gasPrice := 3;
     tx_data := [x60; x80]; tx_hash := 103; tx_hashOld := 203 |}.

(** A transaction whose signature does not recover. *)
Definition unsigned : tx :=
  {| tx_from := None; tx_to := Some 2; tx_payment := 0; tx_nonce := 0;
     tx_value := 1; tx_fee := None; tx_gas := 21000; tx_gasPrice := 1;
     tx_data := []; tx_hash := 104; tx_hashOld := 204 |}.

(** Transfers from a sender on the first and on the second deny list. *)
Definition denied1 : tx :=
  {| tx_from := Some 666; tx_to := Some 2; tx_payment := 0; tx_nonce := 0;
     tx_value := 1; tx_fee := None; tx_gas := 21000; tx_gasPrice := 1;
     tx_data := []; tx_hash := 105; tx_hashOld := 205 |}.

Definition denied2 : tx :=
  {| tx_from := Some 777; tx_to := Some 2; tx_payment := 0; tx_nonce := 0;
     tx_value := 1; tx_fee := None; tx_gas := 21000; tx_gasPrice := 1;
     tx_data := []; tx_hash := 106; tx_hashOld := 206 |}.

(** A transfer from account 5 that asks for more gas than a small block
    has left. *)
Definition hungry : tx :=
  {| tx_from := Some 5; tx_to := Some 2; tx_payment := 0; tx_nonce := 0;
     tx_value := 1; tx_fee := None; tx_gas := 90000; tx_gasPrice := 1;
     tx_data := []; tx_hash := 107; tx_hashOld := 207 |}.

(** A transfer from account 1 whose nonce is ahead of the account's. *)
Definition ahead : tx :=
  {| tx_from := Some 1; tx_to := Some 2; tx_payment := 8; tx_nonce := 7;
     tx_value := 5; tx_fee := None; tx_gas := 21000; tx_gasPrice := 2;
     tx_data := [x01]; tx_hash := 108; tx_hashOld := 208 |}.

Definition block_of (n limit : Z) (txs : list tx) : Block :=
  {| Block_Header := header_at n limit; Block_Transactions := txs |}.

Definition store_of (g : Z) (s : state) (used fee : Z) : Store :=
  {| gp := g; statedb := s; usedGas := used; feeAmount := fee |}.

(** The state database and the store after [transfer] has been applied
    as the first transaction of a block of height 50 and gas limit
    100000. *)
Definition after_transfer : state :=
  {| thash := 201; bhash := 9050; txIndex := 0; logs := [(201, 5)];
     pending := [(1, 1)]; committed := [(1, 1)] |}.

Definition store_after_transfer (limit : Z) : Store :=
  store_of (limit - 21000) after_transfer 21000 42003.

(** Three transactions below the TIP10 height and the first deny-list
    threshold, and the same three above the TIP10 height. *)
Definition block_legacy : Block :=
  block_of 50 100000 [transfer; reverting; creation].

Definition block_tip10 : Block :=
  block_of 150 100000 [transfer; reverting; creation].

(** A block whose gas limit the second transaction exceeds. *)
Definition block_small : Block := block_of 50 50000 [transfer; hungry].

(** A block above [H1] whose second sender is on the first deny list. *)
Definition block_denied : Block := block_of 7000000 100000 [transfer; denied1].

(** The first deny list alone. *)
Definition firstListOnly : DenyLists :=
  {| ForbidAddress := fun a => if a =? 666 then Some ForbiddenAddress else None;
     ForbidAddress2 := fun _ => None |}.

(** A block without transactions. *)
Definition block_empty : Block := block_of 50 100000 [].

(** A transfer from account 6 at a negative gas price, and the block that
    contains it alone: the engine refuses its fee total. *)
Definition rebate : tx :=
  {| tx_from := Some 6; tx_to := Some 2; tx_payment := 0; tx_nonce := 0;
     tx_value := 1; tx_fee := None; tx_gas := 21000; tx_gasPrice := -1;
     tx_data := []; tx_hash := 109; tx_hashOld := 209 |}.

Definition block_rebate : Block := block_of 50 100000 [rebate].

(** A block whose transactions follow the hungry transfer. *)
Definition block_small_long : Block :=
  block_of 50 50000 [transfer; hungry; creation; reverting].

(** An engine that always refuses. *)
Definition strike : Engine :=
  {| Finalize := fun _ _ s _ _ _ => (Fail NegativeFees, s) |}.

(** A store whose used-gas counter is 100 short of the largest [uint64]. *)
Definition store_nearly_full : Store :=
  store_of 100000 (prepare 201 9050 0 genesis) (MaxUint64 - 100) 0.

(** The block numbers of package [rpc], and a light chain that knows the
    headers of heights 0 to 150, whose current header is the one of height
    150 and that has the block of height 50 only. *)
Definition rpcNumbers : RpcNumbers :=
  {| LatestBlockNumber := -1; PendingBlockNumber := -2 |}.

Definition light : LesApiBackend unit :=
  {| CurrentHeader := Some (header_at 150 100000);
     GetHeaderByNumberOdr := fun _ n =>
       if n <=? 150 then (Some (header_at n 100000), None) else (None, None);
     GetBlockByHash := fun _ h =>
       if h =? 9050 then (Some block_legacy, None) else (None, None);
     light_NewState := fun _ h => prepare 0 (hash h) 0 genesis |}.

End Mini.

(** * Properties *)

Section Properties.
Context {P : Primitives} {C : Collaborators}.

Lemma Cmp_gt : forall x y, (Cmp x y >? 0) = (y <? x).
Proof.
  intros x y. unfold Cmp.
  destruct (Z.compare_spec x y) as [E | E | E];
    destruct (Z.ltb_spec y x); try reflexivity; lia.
Qed.

(** The check that [ApplyTransaction] makes inline is the policy gate. *)
Lemma inline_gate {D : DenyLists} : forall n a,
  (if Cmp n 6638000 >? 0 then
     match ForbidAddress a with
     | Some e => Some e
     | None => if Cmp n 24642000 >? 0 then ForbidAddress2 a else None
     end
   else None) = policy_gate n a.
Proof.
  intros n a. unfold policy_gate, H1, H2. now rewrite !Cmp_gt.
Qed.

(** [ApplyTransaction], path by path. *)
Lemma ApplyTransaction_paths {D : DenyLists} :
  forall config bc header tx cfg st,
    ApplyTransaction config bc header tx cfg st =
    let msg := recovered config header tx in
    match snd (AsMessage tx (MakeSigner config (Number header))) with
    | Some e => (Fail e, st)
    | None =>
      match policy_gate (Number header) (From msg) with
      | Some e => (Fail e, st)
      | None =>
        match ApplyMessage (NewEVM (NewEVMContext msg header bc) config cfg)
                           msg (gp st) (statedb st) with
        | (Fail e, gp1, db1) =>
          (Fail e, {| gp := gp1; statedb := db1;
                      usedGas := usedGas st; feeAmount := feeAmount st |})
        | (Ok res, gp1, db1) =>
          (Ok (receipt_of config header tx msg res
                          (uint64 (usedGas st + UsedGas res)) (Finalise true db1)),
           {| gp := gp1; statedb := Finalise true db1;
              usedGas := uint64 (usedGas st + UsedGas res);
              feeAmount := feeAmount st + UsedGas res * GasPrice msg
                           + explicit_fee msg |})
        end
      end
    end.
Proof.
  intros config0 bc0 header tx cfg st.
  unfold ApplyTransaction, recovered.
  destruct (AsMessage tx (MakeSigner config0 (Number header))) as [msg err].
  cbn [fst snd]. destruct err as [e | ]; [reflexivity | ].
  rewrite inline_gate.
  destruct (policy_gate (Number header) (From msg)); [reflexivity | ].
  destruct (ApplyMessage _ msg (gp st) (statedb st)) as [[[res | e] gp1] db1];
    [ | reflexivity].
  f_equal.
  - f_equal. unfold receipt_of, gate_TxHash, CreateBloom, explicit_fee.
    destruct (To msg); cbn; rewrite app_nil_r; reflexivity.
  - f_equal. unfold explicit_fee. destruct (Fee msg); lia.
Qed.

(** A successful application went through recovery, the gate and the
    executor, in this order. *)
Lemma ApplyTransaction_Ok_inv {D : DenyLists} :
  forall config bc header tx cfg st r st',
    ApplyTransaction config bc header tx cfg st = (Ok r, st') ->
    exists msg res gp1 db1,
      AsMessage tx (MakeSigner config (Number header)) = (msg, None) /\
      policy_gate (Number header) (From msg) = None /\
      ApplyMessage (NewEVM (NewEVMContext msg header bc) config cfg)
                   msg (gp st) (statedb st) = (Ok res, gp1, db1) /\
      r = receipt_of config header tx msg res
                     (uint64 (usedGas st + UsedGas res)) (Finalise true db1) /\
      st' = {| gp := gp1; statedb := Finalise true db1;
               usedGas := uint64 (usedGas st + UsedGas res);
               feeAmount := feeAmount st + UsedGas res * GasPrice msg
                            + explicit_fee msg |}.
Proof.
  intros config0 bc0 header tx cfg st r st'.
  rewrite ApplyTransaction_paths. unfold recovered. cbn zeta.
  destruct (AsMessage tx (MakeSigner config0 (Number header))) as [msg err].
  cbn [fst snd]. destruct err; [discriminate | ].
  destruct (policy_gate (Number header) (From msg)) eqn:G; [discriminate | ].
  destruct (ApplyMessage _ msg (gp st) (statedb st))
    as [[[res | e] gp1] db1] eqn:X; [ | discriminate].
  intros E. injection E as <- <-.
  exists msg, res, gp1, db1. repeat split; assumption.
Qed.

(** A failed application stopped at recovery, at the gate or at the
    executor; only the executor may have touched the gas pool and the
    state database. *)
Lemma ApplyTransaction_Fail_inv {D : DenyLists} :
  forall config bc header tx cfg st e st',
    ApplyTransaction config bc header tx cfg st = (Fail e, st') ->
    let msg := recovered config header tx in
    (snd (AsMessage tx (MakeSigner config (Number header))) = Some e /\ st' = st)
    \/ (snd (AsMessage tx (MakeSigner config (Number header))) = None /\
        policy_gate (Number header) (From msg) = Some e /\ st' = st)
    \/ (snd (AsMessage tx (MakeSigner config (Number header))) = None /\
        policy_gate (Number header) (From msg) = None /\
        exists gp1 db1,
          ApplyMessage (NewEVM (NewEVMContext msg header bc) config cfg)
                       msg (gp st) (statedb st) = (Fail e, gp1, db1) /\
          st' = {| gp := gp1; statedb := db1;
                   usedGas := usedGas st; feeAmount := feeAmount st |}).
Proof.
  intros config0 bc0 header tx cfg st e st'.
  rewrite ApplyTransaction_paths. cbn zeta.
  destruct (snd (AsMessage tx (MakeSigner config0 (Number header)))) as [e0 | ].
  { intros E. injection E as -> <-. left. split; reflexivity. }
  destruct (policy_gate _ _) as [e0 | ].
  { intros E. injection E as -> <-. right. left. repeat split; reflexivity. }
  destruct (ApplyMessage _ _ (gp st) (statedb st))
    as [[[res | e0] gp1] db1] eqn:X; [discriminate | ].
  intros E. injection E as -> <-. right. right.
  repeat split; try reflexivity. exists gp1, db1. split; reflexivity.
Qed.

(** One turn of the loop of [Process]. *)
Lemma Process_loop_cons {D : DenyLists} :
  forall fp block cfg tx rest i receipts allLogs st,
    Process_loop fp block (Block_Header block) cfg (tx :: rest) i receipts allLogs st =
    match ApplyTransaction (config fp) (bc fp) (Block_Header block) tx cfg
                           (prepared fp block i tx st) with
    | (Fail err, st2) => (Fail err, st2)
    | (Ok receipt, st2) =>
      Process_loop fp block (Block_Header block) cfg rest (i + 1)
                   (receipts ++ [receipt]) (allLogs ++ Logs receipt) st2
    end.
Proof. reflexivity. Qed.

(** The loop succeeds exactly when every transaction applies, and then it
    has appended the receipts and their logs in transaction order. *)
Lemma Process_loop_Ok {D : DenyLists} :
  forall fp block cfg txs i receipts allLogs st rs ls st',
    Process_loop fp block (Block_Header block) cfg txs i receipts allLogs st
      = (Ok (rs, ls), st') <->
    exists new,
      Applied fp block cfg i txs st new st' /\
      rs = receipts ++ new /\
      ls = allLogs ++ concat (map Logs new).
Proof.
  intros fp block cfg txs.
  induction txs as [ | tx rest IH]; intros i receipts allLogs st rs ls st'.
  - cbn. split.
    + intros E. injection E as <- <- <-. exists []. cbn.
      rewrite !app_nil_r. repeat split. constructor.
    + intros (new & A & -> & ->). inversion A; subst. cbn.
      now rewrite !app_nil_r.
  - rewrite Process_loop_cons.
    destruct (ApplyTransaction _ _ _ tx cfg _) as [[r | e] st2] eqn:X.
    + rewrite IH. split.
      * intros (new & A & -> & ->). exists (r :: new). cbn.
        rewrite <- !app_assoc. repeat split.
        econstructor; eassumption.
      * intros (new & A & -> & ->). inversion A; subst.
        match goal with
        | H : ApplyTransaction _ _ _ _ _ _ = _ |- _ =>
          rewrite X in H; injection H as <- <-
        end.
        eexists. split; [eassumption | ]. cbn.
        now rewrite <- !app_assoc.
    + split; [discriminate | ].
      intros (new & A & _). inversion A; subst. congruence.
Qed.

(** The loop fails exactly when some transaction fails after all its
    predecessors applied; the error is that transaction's. *)
Lemma Process_loop_Fail {D : DenyLists} :
  forall fp block cfg txs i receipts allLogs st e st',
    Process_loop fp block (Block_Header block) cfg txs i receipts allLogs st
      = (Fail e, st') <->
    exists before tx after rs st1,
      txs = before ++ tx :: after /\
      Applied fp block cfg i before st rs st1 /\
      ApplyTransaction (config fp) (bc fp) (Block_Header block) tx cfg
        (prepared fp block (i + Z.of_nat (length before)) tx st1) = (Fail e, st').
Proof.
  intros fp block cfg txs.
  induction txs as [ | tx rest IH]; intros i receipts allLogs st e st'.
  - cbn. split; [discriminate | ].
    intros (before & tx & after & _ & _ & E & _).
    destruct before; discriminate.
  - rewrite Process_loop_cons.
    destruct (ApplyTransaction _ _ _ tx cfg _) as [[r | e0] st2] eqn:X.
    + rewrite IH. split.
      * intros (before & t & after & rs & st1 & -> & A & F).
        exists (tx :: before), t, after, (r :: rs), st1.
        repeat split.
        -- econstructor; eassumption.
        -- cbn [length]. rewrite <- F. do 2 f_equal. lia.
      * intros (before & t & after & rs & st1 & E & A & F).
        destruct before as [ | t0 before].
        -- cbn in E. injection E as <- <-. inversion A; subst.
           cbn in F. rewrite Z.add_0_r in F. congruence.
        -- cbn in E. injection E as <- ->. inversion A; subst.
           match goal with
           | H : ApplyTransaction _ _ _ _ _ _ = (Ok _, _) |- _ =>
             rewrite X in H; injection H as <- <-
           end.
           eexists before, t, after, _, st1. repeat split.
           ++ eassumption.
           ++ rewrite <- F. do 2 f_equal. cbn [length]. lia.
    + split.
      * intros E. injection E as <- <-.
        exists [], tx, rest, [], st. cbn. rewrite Z.add_0_r.
        repeat split; [constructor | assumption].
      * intros (before & t & after & rs & st1 & E & A & F).
        destruct before as [ | t0 before].
        -- cbn in E. injection E as <- <-. inversion A; subst.
           cbn in F. rewrite Z.add_0_r in F. congruence.
        -- cbn in E. injection E as <- ->. inversion A; subst. congruence.
Qed.


(** Applying a list of transactions has one outcome. *)
Lemma Applied_functional {D : DenyLists} :
  forall fp block cfg i txs st rs st',
    Applied fp block cfg i txs st rs st' ->
    forall rs2 st2, Applied fp block cfg i txs st rs2 st2 -> rs2 = rs /\ st2 = st'.
Proof.
  induction 1 as [ | i tx rest st r st1 rs st2 X A IH];
    intros rs' st' A'; inversion A'; subst.
  - split; reflexivity.
  - match goal with
    | H : ApplyTransaction _ _ _ _ _ _ = (Ok _, _) |- _ =>
      rewrite X in H; injection H as <- <-
    end.
    match goal with
    | H : Applied _ _ _ _ _ _ _ _ |- _ => destruct (IH _ _ H) as [-> ->]
    end.
    split; reflexivity.
Qed.

Lemma Applied_length {D : DenyLists} :
  forall fp block cfg i txs st rs st',
    Applied fp block cfg i txs st rs st' -> length rs = length txs.
Proof. induction 1; cbn; congruence. Qed.

(** [Process], when every transaction applies. *)
Lemma Process_Ok {D : DenyLists} :
  forall fp block db cfg receipts allLogs gas infos db',
    Process fp block db cfg = (Ok (receipts, allLogs, gas, infos), db') <->
    exists st,
      Applied fp block cfg 0 (Block_Transactions block)
              (initial_store block db) receipts st /\
      allLogs = concat (map Logs receipts) /\
      gas = usedGas st /\
      Finalize (engine fp) (bc fp) (Block_Header block) (statedb st)
               (Block_Transactions block) receipts (feeAmount st)
        = (Ok infos, db').
Proof.
  intros fp block db cfg receipts allLogs gas infos db'.
  unfold Process.
  change (AddGas 0 (Block_GasLimit block)) with (Block_GasLimit block).
  fold (initial_store block db).
  destruct (Process_loop _ _ _ _ _ _ _ _ _) as [[[rs ls] | e] st] eqn:L.
  - apply Process_loop_Ok in L. destruct L as (new & A & -> & ->). cbn [app].
    split.
    + destruct (Finalize _ _ _ _ _ _) as [[i | e] d] eqn:F; [ | discriminate].
      intros E. injection E as <- <- <- <- <-.
      exists st. repeat split; assumption.
    + intros (st2 & A2 & -> & -> & F2).
      destruct (Applied_functional A A2) as [-> ->].
      rewrite F2. reflexivity.
  - split; [discriminate | ].
    intros (st2 & A2 & _).
    assert (X : Process_loop fp block (Block_Header block) cfg
                  (Block_Transactions block) 0 [] [] (initial_store block db)
                = (Ok ([] ++ receipts, [] ++ concat (map Logs receipts)), st2)).
    { apply Process_loop_Ok. exists receipts. repeat split. assumption. }
    congruence.
Qed.

(** [Process] aborts with the error of the first transaction that fails. *)
Lemma Process_aborts {D : DenyLists} :
  forall fp block cfg db before tx st e st',
    reaches fp block cfg db before tx st ->
    ApplyTransaction (config fp) (bc fp) (Block_Header block) tx cfg
      (prepared fp block (Z.of_nat (length before)) tx st) = (Fail e, st') ->
    Process fp block db cfg = (Fail e, statedb st').
Proof.
  intros fp block cfg db before tx st e st' (after & rs & E & A) F.
  unfold Process.
  change (AddGas 0 (Block_GasLimit block)) with (Block_GasLimit block).
  fold (initial_store block db).
  assert (L : Process_loop fp block (Block_Header block) cfg
                (Block_Transactions block) 0 [] [] (initial_store block db)
              = (Fail e, st')).
  { apply Process_loop_Fail. exists before, tx, after, rs, st.
    repeat split; assumption. }
  rewrite L. reflexivity.
Qed.

(** ** The orchestrator *)

(** C1.  [Process] starts from a gas pool equal to the block's gas limit
    and from a zero used-gas counter and fee accumulator, applies the
    block's transactions in block order, each on the store left by its
    predecessor, collects their receipts in that order and the
    concatenation of the receipts' logs, then calls the engine's
    [Finalize] on the header, the final state database, the transactions,
    the receipts and the final fee accumulator; it returns the receipts,
    the logs, the used gas and the reward summary of [Finalize].  It
    returns them exactly in that case. *)
Theorem Process_runs_block {D : DenyLists} :
  forall fp block db cfg receipts allLogs gas infos db',
    Process fp block db cfg = (Ok (receipts, allLogs, gas, infos), db') <->
    exists st,
      Applied fp block cfg 0 (Block_Transactions block)
              {| gp := GasLimit (Block_Header block); statedb := db;
                 usedGas := 0; feeAmount := 0 |}
              receipts st /\
      allLogs = concat (map Logs receipts) /\
      gas = usedGas st /\
      Finalize (engine fp) (bc fp) (Block_Header block) (statedb st)
               (Block_Transactions block) receipts (feeAmount st)
        = (Ok infos, db').
Proof. intros. apply Process_Ok. Qed.

(** ** Failure classes *)

(** C2.  A transaction that passed recovery and the policy gate and whose
    inner call the executor reports as reverted, without an error, gets a
    receipt whose status is the failed one, and the loop of [Process] goes
    on with the next transaction.  When the executor returns an error,
    [ApplyTransaction] returns that error and no receipt, and [Process]
    on a block that reaches this transaction returns the error. *)
Theorem ApplyTransaction_revert_or_error {D : DenyLists} :
  (forall fp block cfg tx rest i receipts allLogs st msg res gp1 db1,
      AsMessage tx (MakeSigner (config fp) (Number (Block_Header block)))
        = (msg, None) ->
      policy_gate (Number (Block_Header block)) (From msg) = None ->
      ApplyMessage
        (NewEVM (NewEVMContext msg (Block_Header block) (bc fp)) (config fp) cfg)
        msg (gp st) (statedb (prepared fp block i tx st)) = (Ok res, gp1, db1) ->
      Failed res = true ->
      exists r st2,
        ApplyTransaction (config fp) (bc fp) (Block_Header block) tx cfg
                         (prepared fp block i tx st) = (Ok r, st2) /\
        Status r = ReceiptStatusFailed /\
        Process_loop fp block (Block_Header block) cfg (tx :: rest) i
                     receipts allLogs st =
        Process_loop fp block (Block_Header block) cfg rest (i + 1)
                     (receipts ++ [r]) (allLogs ++ Logs r) st2) /\
  (forall fp block cfg db before tx st msg e gp1 db1,
      reaches fp block cfg db before tx st ->
      AsMessage tx (MakeSigner (config fp) (Number (Block_Header block)))
        = (msg, None) ->
      policy_gate (Number (Block_Header block)) (From msg) = None ->
      ApplyMessage
        (NewEVM (NewEVMContext msg (Block_Header block) (bc fp)) (config fp) cfg)
        msg (gp st)
        (statedb (prepared fp block (Z.of_nat (length before)) tx st))
        = (Fail e, gp1, db1) ->
      ApplyTransaction (config fp) (bc fp) (Block_Header block) tx cfg
        (prepared fp block (Z.of_nat (length before)) tx st)
        = (Fail e, {| gp := gp1; statedb := db1;
                      usedGas := usedGas st; feeAmount := feeAmount st |}) /\
      Process fp block db cfg = (Fail e, db1)).
Proof.
  split.
  - intros fp block cfg tx rest i receipts allLogs st msg res gp1 db1 HA HG HX HF.
    rewrite Process_loop_cons, ApplyTransaction_paths.
    unfold recovered. rewrite HA. cbn [fst snd]. cbn zeta. rewrite HG.
    unfold prepared in HX |- *. cbn [gp statedb] in HX |- *. rewrite HX.
    eexists _, _. split; [reflexivity | ]. split; [ | reflexivity].
    cbn. rewrite HF. reflexivity.
  - intros fp block cfg db before tx st msg e gp1 db1 HR HA HG HX.
    assert (F : ApplyTransaction (config fp) (bc fp) (Block_Header block) tx cfg
                  (prepared fp block (Z.of_nat (length before)) tx st)
                = (Fail e, {| gp := gp1; statedb := db1;
                              usedGas := usedGas st; feeAmount := feeAmount st |})).
    { rewrite ApplyTransaction_paths.
      unfold recovered. rewrite HA. cbn [fst snd]. cbn zeta. rewrite HG.
      unfold prepared in HX |- *. cbn [gp statedb] in HX |- *. rewrite HX. reflexivity. }
    split; [exact F | ].
    apply (Process_aborts HR F).
Qed.

(** ** The deny lists *)

(** C4.  The second threshold exceeds the first.  Above [H1] a sender on
    the first deny list makes [ApplyTransaction] fail with the list's
    error, and above [H2] so does a sender on the second list; the store
    is left as it was, no receipt is returned, and [Process] on a block
    that reaches the transaction returns the error.  At heights up to [H1]
    the outcome does not depend on the deny lists at all, and at heights
    up to [H2] it does not depend on the second one. *)
Theorem deny_lists_by_height :
  H1 < H2 /\
  (forall (D : DenyLists) config bc header tx cfg st msg e,
      AsMessage tx (MakeSigner config (Number header)) = (msg, None) ->
      H1 < Number header ->
      ForbidAddress (From msg) = Some e ->
      ApplyTransaction config bc header tx cfg st = (Fail e, st)) /\
  (forall (D : DenyLists) config bc header tx cfg st msg e,
      AsMessage tx (MakeSigner config (Number header)) = (msg, None) ->
      H2 < Number header ->
      ForbidAddress (From msg) = None ->
      ForbidAddress2 (From msg) = Some e ->
      ApplyTransaction config bc header tx cfg st = (Fail e, st)) /\
  (forall (D : DenyLists) fp block cfg db before tx st e,
      reaches fp block cfg db before tx st ->
      snd (AsMessage tx (MakeSigner (config fp) (Number (Block_Header block))))
        = None ->
      policy_gate (Number (Block_Header block))
                  (From (recovered (config fp) (Block_Header block) tx)) = Some e ->
      Process fp block db cfg
        = (Fail e, statedb (prepared fp block (Z.of_nat (length before)) tx st))) /\
  (forall (D D' : DenyLists) config bc header tx cfg st,
      Number header <= H1 ->
      @ApplyTransaction P C D config bc header tx cfg st =
      @ApplyTransaction P C D' config bc header tx cfg st) /\
  (forall (D D' : DenyLists) config bc header tx cfg st,
      Number header <= H2 ->
      (forall a, @ForbidAddress P D a = @ForbidAddress P D' a) ->
      @ApplyTransaction P C D config bc header tx cfg st =
      @ApplyTransaction P C D' config bc header tx cfg st).
Proof.
  split; [reflexivity | ].
  split; [ | split; [ | split; [ | split]]].
  - intros D config0 bc0 header tx cfg st msg e HA Hh HF.
    rewrite ApplyTransaction_paths. unfold recovered, policy_gate.
    rewrite HA. cbn [fst snd]. cbn zeta.
    destruct (Z.ltb_spec H1 (Number header)); [ | lia].
    rewrite HF. reflexivity.
  - intros D config0 bc0 header tx cfg st msg e HA Hh HF HF2.
    rewrite ApplyTransaction_paths. unfold recovered, policy_gate.
    rewrite HA. cbn [fst snd]. cbn zeta.
    destruct (Z.ltb_spec H1 (Number header)); [ | unfold H1, H2 in *; lia].
    destruct (Z.ltb_spec H2 (Number header)); [ | lia].
    rewrite HF, HF2. reflexivity.
  - intros D fp block cfg db before tx st e HR HA HG.
    apply (Process_aborts HR).
    rewrite ApplyTransaction_paths. cbn zeta. rewrite HA, HG. reflexivity.
  - intros D D' config0 bc0 header tx cfg st Hh.
    rewrite !ApplyTransaction_paths. unfold policy_gate.
    destruct (Z.ltb_spec H1 (Number header)); [lia | reflexivity].
  - intros D D' config0 bc0 header tx cfg st Hh HF.
    rewrite !ApplyTransaction_paths. unfold policy_gate.
    rewrite HF.
    destruct (Z.ltb_spec H2 (Number header)); [lia | reflexivity].
Qed.

(** ** The counters on the error paths *)

(** C10.  Whenever [ApplyTransaction] returns an error, the used-gas
    counter and the fee accumulator are as they were on entry; the error
    is the recovery error, a deny-list error or the executor's error. *)
Theorem ApplyTransaction_error_keeps_counters {D : DenyLists} :
  forall config bc header tx cfg st e st',
    ApplyTransaction config bc header tx cfg st = (Fail e, st') ->
    usedGas st' = usedGas st /\ feeAmount st' = feeAmount st /\
    (snd (AsMessage tx (MakeSigner config (Number header))) = Some e \/
     policy_gate (Number header) (From (recovered config header tx)) = Some e \/
     exists gp1 db1,
       ApplyMessage
         (NewEVM (NewEVMContext (recovered config header tx) header bc) config cfg)
         (recovered config header tx) (gp st) (statedb st) = (Fail e, gp1, db1)).
Proof.
  intros config0 bc0 header tx cfg st e st' F.
  apply ApplyTransaction_Fail_inv in F. cbn zeta in F.
  destruct F as [[E ->] | [(_ & G & ->) | (_ & _ & gp1 & db1 & X & ->)]].
  - repeat split. left. exact E.
  - repeat split. right. left. exact G.
  - repeat split. right. right. exists gp1, db1. exact X.
Qed.


(** ** The transaction hash *)

Lemma Applied_TxHash {D : DenyLists} :
  forall fp block cfg i txs st rs st',
    Applied fp block cfg i txs st rs st' ->
    Forall2 (fun tx r =>
               TxHash r = gate_TxHash (config fp) (Number (Block_Header block)) tx)
            txs rs.
Proof.
  induction 1 as [ | i tx rest st r st1 rs st2 X A IH]; constructor.
  - apply ApplyTransaction_Ok_inv in X.
    destruct X as (msg & res & gp1 & db1 & _ & _ & _ & -> & _). reflexivity.
  - exact IH.
Qed.

(** C3.  In every turn of the loop of [Process] the hash [h] that
    [IsTIP10] selects at the block's height (the new derivation when it
    holds, the legacy one otherwise) is the hash given to [Prepare], the
    hash of the receipt and the key of the [GetLogs] lookup that fills the
    receipt's logs; hence every receipt of a processed block carries the
    hash selected for its transaction. *)
Theorem TIP10_selects_one_hash {D : DenyLists} :
  (forall fp block cfg tx rest i receipts allLogs st,
      let h := if IsTIP10 (config fp) (Number (Block_Header block))
               then Tx_Hash tx else Tx_HashOld tx in
      let st1 := {| gp := gp st;
                    statedb := Prepare h (Block_Hash block) i (statedb st);
                    usedGas := usedGas st;
                    feeAmount := feeAmount st |} in
      Process_loop fp block (Block_Header block) cfg (tx :: rest) i
                   receipts allLogs st =
      match ApplyTransaction (config fp) (bc fp) (Block_Header block) tx cfg st1 with
      | (Fail err, st2) => (Fail err, st2)
      | (Ok r, st2) =>
        Process_loop fp block (Block_Header block) cfg rest (i + 1)
                     (receipts ++ [r]) (allLogs ++ Logs r) st2
      end /\
      forall r st2,
        ApplyTransaction (config fp) (bc fp) (Block_Header block) tx cfg st1
          = (Ok r, st2) ->
        TxHash r = h /\ Logs r = GetLogs (statedb st2) h) /\
  (forall fp block db cfg receipts allLogs gas infos db',
      Process fp block db cfg = (Ok (receipts, allLogs, gas, infos), db') ->
      Forall2 (fun tx r =>
                 TxHash r = if IsTIP10 (config fp) (Number (Block_Header block))
                            then Tx_Hash tx else Tx_HashOld tx)
              (Block_Transactions block) receipts).
Proof.
  split.
  - intros fp block cfg tx rest i receipts allLogs st h st1. split.
    + reflexivity.
    + intros r st2 X. apply ApplyTransaction_Ok_inv in X.
      destruct X as (msg & res & gp1 & db1 & _ & _ & _ & -> & ->).
      split; reflexivity.
  - intros fp block db cfg receipts allLogs gas infos db' E.
    apply Process_Ok in E. destruct E as (st & A & _).
    exact (Applied_TxHash A).
Qed.

(** ** The receipt *)

Lemma uint_of_int_small : forall i, 0 <= i < 2 ^ 64 -> uint_of_int i = i.
Proof. intros i Hi. unfold uint_of_int. now apply Z.mod_small. Qed.

Lemma Applied_TransactionIndex {D : DenyLists} :
  keeps_TxIndex ->
  forall fp block cfg i txs st rs st',
    Applied fp block cfg i txs st rs st' ->
    0 <= i ->
    i + Z.of_nat (length txs) <= 2 ^ 63 ->
    forall k r, nth_error rs k = Some r -> TransactionIndex r = i + Z.of_nat k.
Proof.
  intros K fp block cfg i txs st rs st' A.
  induction A as [ | i tx rest st r st1 rs st2 X A IH]; intros Hi Hn k r0 Hk.
  - destruct k; discriminate.
  - cbn [length] in Hn. destruct k as [ | k].
    + cbn in Hk. injection Hk as <-.
      apply ApplyTransaction_Ok_inv in X.
      destruct X as (msg & res & gp1 & db1 & _ & _ & X & -> & _).
      cbn [receipt_of TransactionIndex].
      rewrite (TxIndex_Finalise K).
      pose proof (TxIndex_ApplyMessage K
                    (NewEVM (NewEVMContext msg (Block_Header block) (bc fp))
                            (config fp) cfg)
                    msg (gp (prepared fp block i tx st))
                    (statedb (prepared fp block i tx st))) as T.
      rewrite X in T. cbn [snd] in T. rewrite T.
      unfold prepared. cbn [statedb]. rewrite (TxIndex_Prepare K).
      rewrite uint_of_int_small; lia.
    + cbn in Hk. rewrite (IH ltac:(lia) ltac:(lia) k r0 Hk). lia.
Qed.

(** C5.  The receipt of a successfully applied transaction: its hash is
    the one the TIP10 gate selects, its status follows the execution
    result, its cumulative gas is the used-gas counter including this
    transaction, its gas used is the result's, its logs are those the
    state database holds under that same hash, its bloom is computed over
    those logs, its contract address is created from the sender and the
    transaction nonce when the message has no recipient and is left at the
    zero value otherwise, and block hash, block number and index are those
    of the state database and the header.  When the state database keeps
    the index that [Prepare] stamped, the receipt of index [i] of a
    processed block has [TransactionIndex] equal to [i]. *)
Theorem ApplyTransaction_receipt {D : DenyLists} :
  (forall config bc header tx cfg st r st',
      ApplyTransaction config bc header tx cfg st = (Ok r, st') ->
      exists msg res gp1 db1,
        AsMessage tx (MakeSigner config (Number header)) = (msg, None) /\
        ApplyMessage (NewEVM (NewEVMContext msg header bc) config cfg)
                     msg (gp st) (statedb st) = (Ok res, gp1, db1) /\
        TxHash r = (if IsTIP10 config (Number header)
                    then Tx_Hash tx else Tx_HashOld tx) /\
        Status r = (if Failed res then ReceiptStatusFailed
                    else ReceiptStatusSuccessful) /\
        CumulativeGasUsed r = uint64 (usedGas st + UsedGas res) /\
        CumulativeGasUsed r = usedGas st' /\
        GasUsed r = UsedGas res /\
        Logs r = GetLogs (statedb st') (TxHash r) /\
        Bloom_ r = CreateBloom [r] /\
        Bloom_ r = LogsBloom (Logs r) /\
        ContractAddress r =
          match To msg with
          | None => CreateAddress (From msg) (Tx_Nonce tx)
          | Some _ => zeroAddress
          end /\
        BlockHash_ r = StateDB_BlockHash (statedb st') /\
        BlockNumber r = Some (Number header) /\
        TransactionIndex r = uint_of_int (TxIndex (statedb st'))) /\
  (keeps_TxIndex ->
   forall fp block db cfg receipts allLogs gas infos db',
     Process fp block db cfg = (Ok (receipts, allLogs, gas, infos), db') ->
     Z.of_nat (length (Block_Transactions block)) <= 2 ^ 63 ->
     length receipts = length (Block_Transactions block) /\
     forall i r, nth_error receipts i = Some r ->
                 TransactionIndex r = Z.of_nat i).
Proof.
  split.
  - intros config0 bc0 header tx cfg st r st' X.
    apply ApplyTransaction_Ok_inv in X.
    destruct X as (msg & res & gp1 & db1 & HA & _ & HX & -> & ->).
    exists msg, res, gp1, db1.
    repeat split; try assumption.
    unfold CreateBloom. cbn. now rewrite app_nil_r.
  - intros K fp block db cfg receipts allLogs gas infos db' E Hn.
    apply Process_Ok in E. destruct E as (st & A & _). split.
    + exact (Applied_length A).
    + intros i r Hi.
      rewrite (Applied_TransactionIndex K A ltac:(lia) ltac:(lia) i Hi). lia.
Qed.

(** ** Gas and fees *)

Lemma Applied_feeAmount {D : DenyLists} :
  forall fp block cfg i txs st rs st',
    Applied fp block cfg i txs st rs st' ->
    feeAmount st' =
    feeAmount st + gas_fees (config fp) (Block_Header block) txs rs
    + explicit_fees (config fp) (Block_Header block) txs.
Proof.
  induction 1 as [ | i tx rest st r st1 rs st2 X A IH].
  - unfold gas_fees, explicit_fees. cbn. lia.
  - rewrite IH. apply ApplyTransaction_Ok_inv in X.
    destruct X as (msg & res & gp1 & db1 & HA & _ & _ & -> & ->).
    unfold gas_fees, explicit_fees, recovered in *. cbn.
    rewrite HA. cbn [fst]. unfold Zsum. lia.
Qed.

(** C6.  A successful [ApplyTransaction] leaves the state database that
    [Finalise] returns on the executor's, a used-gas counter increased by
    the result's gas used (in [uint64] arithmetic, hence exactly that much
    whenever the sum is a [uint64]) and a fee accumulator increased by
    gas_used * gas_price plus the explicit fee when there is one.  The
    accumulator that [Process] hands to [Finalize] is the sum of
    gas_used * gas_price plus the sum of the explicit fees over the
    block's transactions. *)
Theorem ApplyTransaction_commits_and_accumulates {D : DenyLists} :
  (forall config bc header tx cfg st r st',
      ApplyTransaction config bc header tx cfg st = (Ok r, st') ->
      exists msg res gp1 db1,
        AsMessage tx (MakeSigner config (Number header)) = (msg, None) /\
        ApplyMessage (NewEVM (NewEVMContext msg header bc) config cfg)
                     msg (gp st) (statedb st) = (Ok res, gp1, db1) /\
        statedb st' = Finalise true db1 /\
        usedGas st' = (usedGas st + UsedGas res) mod 2 ^ 64 /\
        (0 <= usedGas st + UsedGas res <= MaxUint64 ->
         usedGas st' = usedGas st + UsedGas res) /\
        feeAmount st' =
          feeAmount st + UsedGas res * GasPrice msg
          + match Fee msg with Some fee => fee | None => 0 end) /\
  (forall fp block db cfg receipts allLogs gas infos db',
      Process fp block db cfg = (Ok (receipts, allLogs, gas, infos), db') ->
      exists db1,
        Finalize (engine fp) (bc fp) (Block_Header block) db1 (Block_Transactions block)
                 receipts
                 (gas_fees (config fp) (Block_Header block)
                           (Block_Transactions block) receipts
                  + explicit_fees (config fp) (Block_Header block)
                                  (Block_Transactions block))
        = (Ok infos, db')).
Proof.
  split.
  - intros config0 bc0 header tx cfg st r st' X.
    apply ApplyTransaction_Ok_inv in X.
    destruct X as (msg & res & gp1 & db1 & HA & _ & HX & -> & ->).
    exists msg, res, gp1, db1. cbn [statedb usedGas feeAmount].
    repeat split; try assumption.
    intros Hr. unfold uint64, MaxUint64 in *. apply Z.mod_small. lia.
  - intros fp block db cfg receipts allLogs gas infos db' E.
    apply Process_Ok in E. destruct E as (st & A & _ & _ & F).
    exists (statedb st).
    rewrite (Applied_feeAmount A) in F. exact F.
Qed.


(** ** The read-only executor *)

(** [ReadTransaction], path by path: its own gate is [read_gate]. *)
Lemma ReadTransaction_paths {D : DenyLists} :
  forall config bc db header tx cfg,
    ReadTransaction config bc db header tx cfg =
    let msg := recovered config header tx in
    match snd (AsMessage tx (MakeSigner config (Number header))) with
    | Some e => (Fail e, db)
    | None =>
      match read_gate (Number header) (From msg) with
      | Some e => (Fail e, db)
      | None =>
        simulate (NewEVM (NewEVMContext (message_copy msg) header bc) config cfg)
                 msg db
      end
    end.
Proof.
  intros config0 bc0 db header tx cfg.
  unfold ReadTransaction, recovered, read_gate, simulate, message_copy, H1.
  destruct (AsMessage tx (MakeSigner config0 (Number header))) as [msg err].
  cbn [fst snd From]. destruct err as [e | ]; [reflexivity | ].
  rewrite Cmp_gt. reflexivity.
Qed.

(** C7, where the code parts from it.  [ReadTransaction] returns the
    recovery error or, above [H1], the error of the first deny list, leaving
    the state database alone.  Otherwise it runs the executor once, with a
    gas pool of [MaxUint64] = 2^64 - 1, in the environment built from the
    copy of the recovered message, and returns the executor's error, or the
    return data and the gas used of the result, next to the state database
    as the executor left it; nothing is finalised, and no used-gas counter
    or fee accumulator is within its reach.  But the message it hands to
    the executor is the recovered message itself, with the transaction's
    nonce and nonce check: it is not the copy, nor any message with a zero
    nonce and no nonce check, as soon as the recovered message has a
    nonce or a nonce check. *)
Theorem ReadTransaction_runs_recovered_message {D : DenyLists} :
  MaxUint64 = 2 ^ 64 - 1 /\
  (forall config bc db header tx cfg msg e,
      AsMessage tx (MakeSigner config (Number header)) = (msg, Some e) ->
      ReadTransaction config bc db header tx cfg = (Fail e, db)) /\
  (forall config bc db header tx cfg msg e,
      AsMessage tx (MakeSigner config (Number header)) = (msg, None) ->
      H1 < Number header ->
      ForbidAddress (From msg) = Some e ->
      ReadTransaction config bc db header tx cfg = (Fail e, db)) /\
  (forall config bc db header tx cfg msg,
      AsMessage tx (MakeSigner config (Number header)) = (msg, None) ->
      Number header <= H1 \/ ForbidAddress (From msg) = None ->
      (exists out gp1 db1,
          ApplyMessage
            (NewEVM (NewEVMContext (message_copy msg) header bc) config cfg)
            msg MaxUint64 db = (out, gp1, db1) /\
          ReadTransaction config bc db header tx cfg =
          (match out with
           | Ok res => Ok (ReturnData res, UsedGas res)
           | Fail e => Fail e
           end, db1)) /\
      (Nonce msg <> 0 \/ CheckNonce msg = true ->
       msg <> message_copy msg /\
       forall m, Nonce m = 0 -> CheckNonce m = false -> msg <> m)).
Proof.
  split; [reflexivity | ]. split; [ | split].
  - intros config0 bc0 db header tx cfg msg e HA.
    rewrite ReadTransaction_paths. cbn zeta. rewrite HA. reflexivity.
  - intros config0 bc0 db header tx cfg msg e HA Hh HF.
    rewrite ReadTransaction_paths. unfold recovered, read_gate. cbn zeta.
    rewrite HA. cbn [fst snd].
    destruct (Z.ltb_spec H1 (Number header)); [ | lia].
    rewrite HF. reflexivity.
  - intros config0 bc0 db header tx cfg msg HA Hg. split.
    + rewrite ReadTransaction_paths. unfold recovered, read_gate. cbn zeta.
      rewrite HA. cbn [fst snd].
      assert (G : (if H1 <? Number header then ForbidAddress (From msg) else None)
                  = None).
      { destruct (Z.ltb_spec H1 (Number header)); [ | reflexivity].
        destruct Hg as [Hg | Hg]; [lia | exact Hg]. }
      rewrite G. unfold simulate.
      destruct (ApplyMessage _ msg MaxUint64 db) as [[out gp1] db1] eqn:X.
      exists out, gp1, db1. split; [reflexivity | ]. destruct out; reflexivity.
    + intros Hn.
      assert (N : forall m, Nonce m = 0 -> CheckNonce m = false -> msg <> m).
      { intros m Hm Hc E. subst m. destruct Hn as [Hn | Hn]; congruence. }
      split; [ | exact N]. apply N; reflexivity.
Qed.

(** C8, where the two gates part.  Above [H2], for a sender that the
    first deny list lets through and the second one rejects,
    [ApplyTransaction] fails with the second list's error while
    [ReadTransaction] goes on to run the executor; up to [H2] the two
    gates agree. *)
Theorem ReadTransaction_skips_second_deny_list {D : DenyLists} :
  forall config bc header tx cfg st db msg e,
    AsMessage tx (MakeSigner config (Number header)) = (msg, None) ->
    H2 < Number header ->
    ForbidAddress (From msg) = None ->
    ForbidAddress2 (From msg) = Some e ->
    ApplyTransaction config bc header tx cfg st = (Fail e, st) /\
    ReadTransaction config bc db header tx cfg =
    simulate (NewEVM (NewEVMContext (message_copy msg) header bc) config cfg)
             msg db /\
    read_gate (Number header) (From msg) <> policy_gate (Number header) (From msg) /\
    (forall height sender,
        height <= H2 -> read_gate height sender = policy_gate height sender).
Proof.
  intros config0 bc0 header tx cfg st db msg e HA Hh HF HF2.
  assert (G1 : read_gate (Number header) (From msg) = None).
  { unfold read_gate. rewrite HF. now destruct (H1 <? Number header). }
  assert (G2 : policy_gate (Number header) (From msg) = Some e).
  { unfold policy_gate. rewrite HF, HF2.
    destruct (Z.ltb_spec H1 (Number header)); [ | unfold H1, H2 in *; lia].
    destruct (Z.ltb_spec H2 (Number header)); [reflexivity | lia]. }
  split; [ | split; [ | split]].
  - rewrite ApplyTransaction_paths. unfold recovered. cbn zeta.
    rewrite HA. cbn [fst snd]. rewrite G2. reflexivity.
  - rewrite ReadTransaction_paths. unfold recovered. cbn zeta.
    rewrite HA. cbn [fst snd]. rewrite G1. reflexivity.
  - rewrite G1, G2. discriminate.
  - intros height sender Hle. unfold read_gate, policy_gate.
    destruct (H1 <? height); [ | reflexivity].
    destruct (ForbidAddress sender); [reflexivity | ].
    destruct (Z.ltb_spec H2 height); [lia | reflexivity].
Qed.

(** C9, where the code parts from it.  [ReadTransaction] writes nothing to
    the state database itself and finalises nothing: whatever observation
    of the state database the executor preserves (a committed layer that
    only [Finalise] writes, for one) is the same after the call as before.
    But it hands the caller's state database to the executor, with the
    recovered message and its nonce check, and returns it as that one run
    of the executor left it; a second call on it is the executor's run on
    the same message from the state database the first run left, so it
    returns what the first call returned only if the executor does on that
    state database what it did on the first. *)
Theorem ReadTransaction_leaves_executor_writes {D : DenyLists} :
  (forall (X : Type) (obs : StateDB -> X),
      (forall vmenv m g s, obs (snd (ApplyMessage vmenv m g s)) = obs s) ->
      forall config bc db header tx cfg,
        obs (snd (ReadTransaction config bc db header tx cfg)) = obs db) /\
  (forall config bc db header tx cfg msg out gp1 db1 out2 gp2 db2,
      AsMessage tx (MakeSigner config (Number header)) = (msg, None) ->
      Number header <= H1 \/ ForbidAddress (From msg) = None ->
      ApplyMessage
        (NewEVM (NewEVMContext (message_copy msg) header bc) config cfg)
        msg MaxUint64 db = (out, gp1, db1) ->
      ApplyMessage
        (NewEVM (NewEVMContext (message_copy msg) header bc) config cfg)
        msg MaxUint64 db1 = (out2, gp2, db2) ->
      snd (ReadTransaction config bc db header tx cfg) = db1 /\
      ReadTransaction config bc
        (snd (ReadTransaction config bc db header tx cfg)) header tx cfg
      = (match out2 with
         | Ok res => Ok (ReturnData res, UsedGas res)
         | Fail e => Fail e
         end, db2)).
Proof.
  split.
  - intros X obs K config0 bc0 db header tx cfg.
    rewrite ReadTransaction_paths. cbn zeta.
    destruct (snd (AsMessage _ _)); [reflexivity | ].
    destruct (read_gate _ _); [reflexivity | ].
    unfold simulate.
    match goal with
    | |- context [ApplyMessage ?v ?m ?g ?s] =>
      specialize (K v m g s); destruct (ApplyMessage v m g s) as [[[res | e] g1] d1]
    end; exact K.
  - intros config0 bc0 db header tx cfg msg out gp1 db1 out2 gp2 db2 HA Hg X1 X2.
    assert (G : read_gate (Number header) (From msg) = None).
    { unfold read_gate.
      destruct (Z.ltb_spec H1 (Number header)); [ | reflexivity].
      destruct Hg as [Hg | Hg]; [lia | exact Hg]. }
    assert (S : forall d, ReadTransaction config0 bc0 d header tx cfg =
                          simulate (NewEVM (NewEVMContext (message_copy msg)
                                                          header bc0) config0 cfg)
                                   msg d).
    { intros d. rewrite ReadTransaction_paths. unfold recovered. cbn zeta.
      rewrite HA. cbn [fst snd]. rewrite G. reflexivity. }
    assert (E : snd (ReadTransaction config0 bc0 db header tx cfg) = db1).
    { rewrite S. unfold simulate. rewrite X1. destruct out; reflexivity. }
    split; [exact E | ].
    rewrite E, S. unfold simulate. rewrite X2. destruct out2; reflexivity.
Qed.

End Properties.

(** * The processor on the miniature chain *)

#[local] Existing Instance Mini.prims.
#[local] Existing Instance Mini.collaborators.
#[local] Existing Instance Mini.denyLists.

(** The legacy block is processed to three receipts, and so described. *)
Lemma Process_runs_block_witness :
  exists receipts allLogs gas infos db' st,
    Applied Mini.processor Mini.block_legacy tt 0
            (Block_Transactions Mini.block_legacy)
            {| gp := 100000; statedb := Mini.genesis; usedGas := 0; feeAmount := 0 |}
            receipts st /\
    allLogs = concat (map Logs receipts) /\
    gas = usedGas st /\
    Finalize (engine Mini.processor) (bc Mini.processor) (Block_Header Mini.block_legacy) (statedb st)
             (Block_Transactions Mini.block_legacy) receipts (feeAmount st)
      = (Ok infos, db') /\
    length receipts = 3%nat /\ allLogs = [5; 7] /\ gas = 63000 /\ infos = 126003.
Proof.
  eexists _, _, _, _, _.
  assert (E : Process Mini.processor Mini.block_legacy Mini.genesis tt
              = (Ok (_, _, _, _), _)) by (vm_compute; reflexivity).
  destruct (proj1 (Process_runs_block Mini.processor Mini.block_legacy
                     Mini.genesis tt _ _ _ _ _) E) as (st & A & L & G & F).
  exists st.
  split; [exact A | ]. split; [exact L | ]. split; [exact G | ].
  split; [exact F | ]. repeat split; reflexivity.
Defined.

(** The reverting call gets a failed receipt in the legacy block, whose
    loop goes on with the creation; the hungry transfer aborts the small
    block. *)
Lemma ApplyTransaction_revert_or_error_witness :
  (exists r st2,
      ApplyTransaction (config Mini.processor) (bc Mini.processor)
        (Block_Header Mini.block_legacy) Mini.reverting tt
        (prepared Mini.processor Mini.block_legacy 1 Mini.reverting
                  (Mini.store_after_transfer 100000)) = (Ok r, st2) /\
      Status r = ReceiptStatusFailed /\
      Process_loop Mini.processor Mini.block_legacy
        (Block_Header Mini.block_legacy) tt [Mini.reverting; Mini.creation] 1
        [] [] (Mini.store_after_transfer 100000) =
      Process_loop Mini.processor Mini.block_legacy
        (Block_Header Mini.block_legacy) tt [Mini.creation] (1 + 1)
        ([] ++ [r]) ([] ++ Logs r) st2) /\
  Process Mini.processor Mini.block_small Mini.genesis tt
    = (Fail Mini.GasLimitReached,
       Mini.prepare 207 9050 1 Mini.after_transfer).
Proof.
  split.
  - eapply (proj1 ApplyTransaction_revert_or_error Mini.processor
              Mini.block_legacy tt Mini.reverting [Mini.creation] 1 [] []
              (Mini.store_after_transfer 100000)).
    + reflexivity.
    + reflexivity.
    + reflexivity.
    + reflexivity.
  - eapply (proj2 ApplyTransaction_revert_or_error Mini.processor
              Mini.block_small tt Mini.genesis [Mini.transfer] Mini.hungry
              (Mini.store_after_transfer 50000)).
    + exists []. eexists. split; [reflexivity | ].
      econstructor; [reflexivity | constructor].
    + reflexivity.
    + reflexivity.
    + reflexivity.
Defined.

(** Deny lists on the miniature chain: rejected above the thresholds,
    ignored at them. *)
Lemma deny_lists_by_height_witness :
  ApplyTransaction Mini.tip10 tt (Mini.header_at 6638001 100000) Mini.denied1 tt
                   (Mini.store_of 100000 Mini.genesis 0 0)
    = (Fail Mini.ForbiddenAddress, Mini.store_of 100000 Mini.genesis 0 0) /\
  ApplyTransaction Mini.tip10 tt (Mini.header_at 24642001 100000) Mini.denied2 tt
                   (Mini.store_of 100000 Mini.genesis 0 0)
    = (Fail Mini.ForbiddenAddress2, Mini.store_of 100000 Mini.genesis 0 0) /\
  Process Mini.processor Mini.block_denied Mini.genesis tt
    = (Fail Mini.ForbiddenAddress,
       Mini.prepare 105 7009000 1
         {| Mini.thash := 101; Mini.bhash := 7009000; Mini.txIndex := 0;
            Mini.logs := [(101, 5)]; Mini.pending := [(1, 1)];
            Mini.committed := [(1, 1)] |}) /\
  @ApplyTransaction _ _ Mini.denyLists Mini.tip10 tt
     (Mini.header_at 6638000 100000) Mini.denied1 tt
     (Mini.store_of 100000 Mini.genesis 0 0) =
  @ApplyTransaction _ _ Mini.noDenyLists Mini.tip10 tt
     (Mini.header_at 6638000 100000) Mini.denied1 tt
     (Mini.store_of 100000 Mini.genesis 0 0) /\
  @ApplyTransaction _ _ Mini.denyLists Mini.tip10 tt
     (Mini.header_at 24642000 100000) Mini.denied2 tt
     (Mini.store_of 100000 Mini.genesis 0 0) =
  @ApplyTransaction _ _ Mini.firstListOnly Mini.tip10 tt
     (Mini.header_at 24642000 100000) Mini.denied2 tt
     (Mini.store_of 100000 Mini.genesis 0 0).
Proof.
  destruct (@deny_lists_by_height Mini.prims Mini.collaborators)
    as (_ & T1 & T2 & T3 & T4 & T5).
  split; [ | split; [ | split; [ | split]]].
  - eapply (T1 Mini.denyLists); [reflexivity | unfold H1; cbn; lia | reflexivity].
  - eapply (T2 Mini.denyLists);
      [reflexivity | unfold H2; cbn; lia | reflexivity | reflexivity].
  - refine (T3 Mini.denyLists Mini.processor Mini.block_denied tt Mini.genesis
               [Mini.transfer] Mini.denied1
               (Mini.store_of 79000
                  {| Mini.thash := 101; Mini.bhash := 7009000; Mini.txIndex := 0;
                     Mini.logs := [(101, 5)]; Mini.pending := [(1, 1)];
                     Mini.committed := [(1, 1)] |} 21000 42003)
               Mini.ForbiddenAddress _ _ _).
    + exists []. eexists. split; [reflexivity | ].
      econstructor; [reflexivity | constructor].
    + reflexivity.
    + reflexivity.
  - apply T4. unfold H1. cbn. lia.
  - apply T5; [unfold H2; cbn; lia | reflexivity].
Defined.

(** The hungry transfer fails in the executor and leaves the counters. *)
Lemma ApplyTransaction_error_keeps_counters_witness :
  let st := Mini.store_after_transfer 50000 in
  let st' := {| gp := 29000; statedb := Mini.after_transfer;
                usedGas := 21000; feeAmount := 42003 |} in
  ApplyTransaction Mini.tip10 tt (Mini.header_at 50 50000) Mini.hungry tt st
    = (Fail Mini.GasLimitReached, st') /\
  usedGas st' = usedGas st /\
  feeAmount st' = feeAmount st.
Proof.
  intros st st'.
  assert (E : ApplyTransaction Mini.tip10 tt (Mini.header_at 50 50000)
                Mini.hungry tt st = (Fail Mini.GasLimitReached, st'))
    by reflexivity.
  split; [exact E | ].
  destruct (ApplyTransaction_error_keeps_counters _ _ _ _ _ _ E) as (U & F & _).
  split; [exact U | exact F].
Defined.

(** Above the TIP10 height the transfer is prepared, receipted and looked up
    under its new hash 101, and the receipts of the block carry the new
    hashes; below it, the legacy hashes. *)
Lemma TIP10_selects_one_hash_witness :
  (exists r st2,
      ApplyTransaction Mini.tip10 tt (Mini.header_at 150 100000) Mini.transfer tt
        (Mini.store_of 100000 (Mini.prepare 101 9150 0 Mini.genesis) 0 0)
        = (Ok r, st2) /\
      TxHash r = 101 /\ Logs r = Mini.getLogs (statedb st2) 101) /\
  (exists receipts allLogs gas infos db',
      Process Mini.processor Mini.block_tip10 Mini.genesis tt
        = (Ok (receipts, allLogs, gas, infos), db') /\
      Forall2 (fun tx r => TxHash r = Mini.tx_hash tx)
              [Mini.transfer; Mini.reverting; Mini.creation] receipts) /\
  (exists receipts allLogs gas infos db',
      Process Mini.processor Mini.block_legacy Mini.genesis tt
        = (Ok (receipts, allLogs, gas, infos), db') /\
      Forall2 (fun tx r => TxHash r = Mini.tx_hashOld tx)
              [Mini.transfer; Mini.reverting; Mini.creation] receipts).
Proof.
  split; [ | split].
  - eexists _, _.
    assert (E : ApplyTransaction Mini.tip10 tt (Mini.header_at 150 100000)
                  Mini.transfer tt
                  (Mini.store_of 100000 (Mini.prepare 101 9150 0 Mini.genesis) 0 0)
                = (Ok _, _)) by reflexivity.
    split; [exact E | ].
    exact (proj2 (proj1 TIP10_selects_one_hash Mini.processor Mini.block_tip10
                    tt Mini.transfer [] 0 [] []
                    (Mini.store_of 100000 Mini.genesis 0 0)) _ _ E).
  - eexists _, _, _, _, _.
    assert (E : Process Mini.processor Mini.block_tip10 Mini.genesis tt
                = (Ok (_, _, _, _), _)) by (vm_compute; reflexivity).
    split; [exact E | ].
    exact (proj2 TIP10_selects_one_hash _ _ _ _ _ _ _ _ _ E).
  - eexists _, _, _, _, _.
    assert (E : Process Mini.processor Mini.block_legacy Mini.genesis tt
                = (Ok (_, _, _, _), _)) by (vm_compute; reflexivity).
    split; [exact E | ].
    exact (proj2 TIP10_selects_one_hash _ _ _ _ _ _ _ _ _ E).
Defined.

(** The state database of the miniature chain keeps the stamped index. *)
Lemma Mini_keeps_TxIndex : keeps_TxIndex.
Proof.
  split.
  - reflexivity.
  - intros vmenv msg g s. cbn. unfold Mini.applyMessage.
    destruct (CheckNonce msg && _); [reflexivity | ].
    destruct (g <? Gas msg); [reflexivity | ].
    destruct (Gas msg <? 21000); [reflexivity | ].
    destruct (Mini.reverts (Data msg)); reflexivity.
  - reflexivity.
Qed.

(** The receipt of the creation, third in the legacy block, and the indices
    of the block's receipts. *)
Lemma ApplyTransaction_receipt_witness :
  (exists r st',
      ApplyTransaction Mini.tip10 tt (Mini.header_at 50 100000) Mini.creation tt
        (Mini.store_of 58000 (Mini.prepare 203 9050 2 Mini.genesis) 42000 63003)
        = (Ok r, st') /\
      TxHash r = 203 /\ Status r = ReceiptStatusSuccessful /\
      CumulativeGasUsed r = 63000 /\ GasUsed r = 21000 /\
      Logs r = Mini.getLogs (statedb st') 203 /\
      Bloom_ r = fold_right Z.lor 0 (Logs r) /\
      ContractAddress r = 4 * 1000 + 0 + 1 /\
      BlockHash_ r = 9050 /\ BlockNumber r = Some 50 /\
      TransactionIndex r = 2) /\
  (exists receipts allLogs gas infos db',
      Process Mini.processor Mini.block_legacy Mini.genesis tt
        = (Ok (receipts, allLogs, gas, infos), db') /\
      length receipts = 3%nat /\
      forall i r, nth_error receipts i = Some r ->
                  TransactionIndex r = Z.of_nat i).
Proof.
  split.
  - eexists _, _.
    assert (E : ApplyTransaction Mini.tip10 tt (Mini.header_at 50 100000)
                  Mini.creation tt
                  (Mini.store_of 58000 (Mini.prepare 203 9050 2 Mini.genesis)
                                 42000 63003)
                = (Ok _, _)) by reflexivity.
    split; [exact E | ].
    destruct (proj1 ApplyTransaction_receipt _ _ _ _ _ _ _ _ E)
      as (msg & res & gp1 & db1 & HA & HX & T1 & T2 & T3 & T4 & T5 & T6 & T7
          & T8 & T9 & T10 & T11 & T12).
    injection HA as <-. injection HX as <- _ _.
    split; [exact T1 | ]. split; [exact T2 | ]. split; [exact T3 | ].
    split; [exact T5 | ]. split; [exact T6 | ]. split; [exact T8 | ].
    split; [exact T9 | ]. split; [exact T10 | ]. split; [exact T11 | exact T12].
  - eexists _, _, _, _, _.
    assert (E : Process Mini.processor Mini.block_legacy Mini.genesis tt
                = (Ok (_, _, _, _), _)) by (vm_compute; reflexivity).
    split; [exact E | ].
    apply (proj2 ApplyTransaction_receipt Mini_keeps_TxIndex _ _ _ _ _ _ _ _ _ E).
    cbn. lia.
Defined.

(** The transfer commits, uses 21000 gas and pays 21000 * 2 + 3; the
    legacy block hands 126003 to [Finalize]. *)
Lemma ApplyTransaction_commits_and_accumulates_witness :
  (exists r st',
      ApplyTransaction Mini.tip10 tt (Mini.header_at 50 100000) Mini.transfer tt
        (Mini.store_of 100000 (Mini.prepare 201 9050 0 Mini.genesis) 0 0)
        = (Ok r, st') /\
      Mini.committed (statedb st') = Mini.pending (statedb st') /\
      usedGas st' = 0 + 21000 /\
      feeAmount st' = 0 + 21000 * 2 + 3) /\
  (exists receipts allLogs gas infos db' db1,
      Process Mini.processor Mini.block_legacy Mini.genesis tt
        = (Ok (receipts, allLogs, gas, infos), db') /\
      Finalize (engine Mini.processor) tt (Block_Header Mini.block_legacy) db1
               (Block_Transactions Mini.block_legacy) receipts
               (gas_fees Mini.tip10 (Block_Header Mini.block_legacy)
                         (Block_Transactions Mini.block_legacy) receipts
                + explicit_fees Mini.tip10 (Block_Header Mini.block_legacy)
                                (Block_Transactions Mini.block_legacy))
        = (Ok infos, db') /\
      gas_fees Mini.tip10 (Block_Header Mini.block_legacy)
               (Block_Transactions Mini.block_legacy) receipts = 126000 /\
      explicit_fees Mini.tip10 (Block_Header Mini.block_legacy)
                    (Block_Transactions Mini.block_legacy) = 3).
Proof.
  split.
  - eexists _, _.
    assert (E : ApplyTransaction Mini.tip10 tt (Mini.header_at 50 100000)
                  Mini.transfer tt
                  (Mini.store_of 100000 (Mini.prepare 201 9050 0 Mini.genesis) 0 0)
                = (Ok _, _)) by reflexivity.
    split; [exact E | ].
    destruct (proj1 ApplyTransaction_commits_and_accumulates _ _ _ _ _ _ _ _ E)
      as (msg & res & gp1 & db1 & HA & HX & S & U & U' & F).
    injection HA as <-. injection HX as <- _ <-.
    split; [rewrite S; reflexivity | ].
    split; [apply U'; cbn; unfold MaxUint64; lia | exact F].
  - eexists _, _, _, _, _.
    assert (E : Process Mini.processor Mini.block_legacy Mini.genesis tt
                = (Ok (_, _, _, _), _)) by (vm_compute; reflexivity).
    destruct (proj2 ApplyTransaction_commits_and_accumulates _ _ _ _ _ _ _ _ _ E)
      as (db1 & F).
    exists db1. split; [exact E | ]. split; [exact F | ].
    split; reflexivity.
Defined.

(** ** [ReadTransaction] on the miniature chain *)

(** Account 1 has nonce 0 and the transaction [Mini.ahead] has nonce 7:
    [ReadTransaction] returns the executor's nonce error, because the
    executor is given the recovered message (nonce 7, nonce check on); run
    on the copy that [ReadTransaction] builds, the executor returns the
    data.  Before that, a recovery error and a sender on the first deny
    list. *)
Lemma ReadTransaction_runs_recovered_message_witness :
  ReadTransaction Mini.tip10 tt Mini.genesis (Mini.header_at 50 100000)
                  Mini.unsigned tt
    = (Fail Mini.InvalidSender, Mini.genesis) /\
  ReadTransaction Mini.tip10 tt Mini.genesis (Mini.header_at 6638001 100000)
                  Mini.denied1 tt
    = (Fail Mini.ForbiddenAddress, Mini.genesis) /\
  ReadTransaction Mini.tip10 tt Mini.genesis (Mini.header_at 50 100000)
                  Mini.ahead tt
    = (Fail Mini.NonceMismatch, Mini.genesis) /\
  recovered Mini.tip10 (Mini.header_at 50 100000) Mini.ahead
  <> message_copy (recovered Mini.tip10 (Mini.header_at 50 100000) Mini.ahead) /\
  fst (simulate
         (NewEVM (NewEVMContext
                    (message_copy (recovered Mini.tip10 (Mini.header_at 50 100000)
                                             Mini.ahead))
                    (Mini.header_at 50 100000) tt) Mini.tip10 tt)
         (message_copy (recovered Mini.tip10 (Mini.header_at 50 100000)
                                  Mini.ahead))
         Mini.genesis)
    = Ok ([x01], 21000).
Proof.
  destruct (@ReadTransaction_runs_recovered_message Mini.prims
              Mini.collaborators Mini.denyLists) as (_ & T1 & T2 & T3).
  split; [ | split; [ | split; [ | split]]].
  - eapply T1. reflexivity.
  - eapply T2; [reflexivity | unfold H1; cbn; lia | reflexivity].
  - assert (Hh : Number (Mini.header_at 50 100000) <= H1
                 \/ ForbidAddress
                      (From (recovered Mini.tip10 (Mini.header_at 50 100000)
                                       Mini.ahead)) = None)
      by (right; reflexivity).
    destruct (T3 Mini.tip10 tt Mini.genesis (Mini.header_at 50 100000)
                 Mini.ahead tt _ eq_refl Hh)
      as ((out & gp1 & db1 & X & R) & _).
    rewrite R. vm_compute in X. injection X as <- _ <-. reflexivity.
  - assert (Hh : Number (Mini.header_at 50 100000) <= H1
                 \/ ForbidAddress
                      (From (recovered Mini.tip10 (Mini.header_at 50 100000)
                                       Mini.ahead)) = None)
      by (right; reflexivity).
    destruct (T3 Mini.tip10 tt Mini.genesis (Mini.header_at 50 100000)
                 Mini.ahead tt _ eq_refl Hh)
      as (_ & N).
    destruct N as [N _]; [left; vm_compute; discriminate | exact N].
  - reflexivity.
Defined.

(** C8 at a failing input: at height 24642001 the sender 777, which only
    the second deny list names, is rejected by [ApplyTransaction] and
    served by [ReadTransaction]. *)
Lemma ReadTransaction_skips_second_deny_list_witness :
  ApplyTransaction Mini.tip10 tt (Mini.header_at 24642001 100000) Mini.denied2 tt
                   (Mini.store_of 100000 Mini.genesis 0 0)
    = (Fail Mini.ForbiddenAddress2, Mini.store_of 100000 Mini.genesis 0 0) /\
  fst (ReadTransaction Mini.tip10 tt Mini.genesis
                       (Mini.header_at 24642001 100000) Mini.denied2 tt)
    = Ok ([], 21000) /\
  read_gate 24642001 777 = None /\
  policy_gate 24642001 777 = Some Mini.ForbiddenAddress2.
Proof.
  destruct (@ReadTransaction_skips_second_deny_list
              Mini.prims Mini.collaborators Mini.denyLists
              Mini.tip10 tt (Mini.header_at 24642001 100000) Mini.denied2 tt
              (Mini.store_of 100000 Mini.genesis 0 0) Mini.genesis
              _ Mini.ForbiddenAddress2
              eq_refl eq_refl eq_refl eq_refl)
    as (A & R & _ & _).
  split; [exact A | ]. split; [rewrite R; reflexivity | ].
  split; reflexivity.
Defined.

(** The gates of the miniature chain are not in lock step. *)
Lemma gates_out_of_step : ~ gates_in_lock_step.
Proof.
  intros H. destruct (H 24642001 777) as [H' _].
  specialize (H' eq_refl). discriminate H'.
Qed.

(** The executor of the miniature chain never writes the committed layer. *)
Lemma Mini_executor_keeps_committed :
  forall vmenv m g s,
    Mini.committed (snd (Mini.applyMessage vmenv m g s)) = Mini.committed s.
Proof.
  intros vmenv m g s. unfold Mini.applyMessage.
  destruct (CheckNonce m && _); [reflexivity | ].
  destruct (g <? Gas m); [reflexivity | ].
  destruct (Gas m <? 21000); [reflexivity | ].
  destruct (Mini.reverts (Data m)); reflexivity.
Qed.

(** A first [ReadTransaction] of the transfer on the genesis state database
    succeeds and leaves the pending nonce of account 1 at 1 (and a log); the
    committed layer is untouched.  A second call on the state database so
    left fails with a nonce error. *)
Lemma ReadTransaction_leaves_executor_writes_witness :
  ReadTransaction Mini.tip10 tt Mini.genesis (Mini.header_at 50 100000)
                  Mini.transfer tt
    = (Ok ([], 21000),
       {| Mini.thash := 0; Mini.bhash := 0; Mini.txIndex := 0;
          Mini.logs := [(0, 5)]; Mini.pending := [(1, 1)];
          Mini.committed := [] |}) /\
  Mini.committed
    (snd (ReadTransaction Mini.tip10 tt Mini.genesis (Mini.header_at 50 100000)
                          Mini.transfer tt))
    = Mini.committed Mini.genesis /\
  snd (ReadTransaction Mini.tip10 tt Mini.genesis (Mini.header_at 50 100000)
                       Mini.transfer tt)
    = {| Mini.thash := 0; Mini.bhash := 0; Mini.txIndex := 0;
         Mini.logs := [(0, 5)]; Mini.pending := [(1, 1)];
         Mini.committed := [] |} /\
  ReadTransaction Mini.tip10 tt
    (snd (ReadTransaction Mini.tip10 tt Mini.genesis (Mini.header_at 50 100000)
                          Mini.transfer tt))
    (Mini.header_at 50 100000) Mini.transfer tt
    = (Fail Mini.NonceMismatch,
       {| Mini.thash := 0; Mini.bhash := 0; Mini.txIndex := 0;
          Mini.logs := [(0, 5)]; Mini.pending := [(1, 1)];
          Mini.committed := [] |}).
Proof.
  destruct (@ReadTransaction_leaves_executor_writes Mini.prims
              Mini.collaborators Mini.denyLists) as [T1 T2].
  split; [reflexivity | ]. split.
  - exact (T1 _ Mini.committed Mini_executor_keeps_committed
              Mini.tip10 tt Mini.genesis (Mini.header_at 50 100000)
              Mini.transfer tt).
  - assert (Hh : Number (Mini.header_at 50 100000) <= H1
                 \/ ForbidAddress
                      (From (recovered Mini.tip10 (Mini.header_at 50 100000)
                                       Mini.transfer)) = None)
      by (right; reflexivity).
    exact (T2 Mini.tip10 tt Mini.genesis (Mini.header_at 50 100000)
              Mini.transfer tt
              (recovered Mini.tip10 (Mini.header_at 50 100000) Mini.transfer)
              (Ok {| UsedGas := 21000; Failed := false; ReturnData := [] |})
              (MaxUint64 - 21000)
              {| Mini.thash := 0; Mini.bhash := 0; Mini.txIndex := 0;
                 Mini.logs := [(0, 5)]; Mini.pending := [(1, 1)];
                 Mini.committed := [] |}
              (Fail Mini.NonceMismatch)
              MaxUint64
              {| Mini.thash := 0; Mini.bhash := 0; Mini.txIndex := 0;
                 Mini.logs := [(0, 5)]; Mini.pending := [(1, 1)];
                 Mini.committed := [] |}
              eq_refl Hh eq_refl eq_refl).
Defined.

(** * Further properties of the processor *)

Section Further.
Context {P : Primitives} {C : Collaborators}.

(** ** How the loop composes and where it stops *)

(** The loop over a concatenation is the loop over the first part followed,
    when that succeeds, by the loop over the second part from the index,
    the receipts, the logs and the store that the first part left; when the
    first part fails, the second is not run. *)
Theorem Process_loop_app {D : DenyLists} :
  forall fp block header cfg txs1 txs2 i receipts allLogs st,
    Process_loop fp block header cfg (txs1 ++ txs2) i receipts allLogs st =
    match Process_loop fp block header cfg txs1 i receipts allLogs st with
    | (Fail e, st1) => (Fail e, st1)
    | (Ok (receipts1, allLogs1), st1) =>
      Process_loop fp block header cfg txs2 (i + Z.of_nat (length txs1))
                   receipts1 allLogs1 st1
    end.
Proof.
  intros fp block header cfg txs1 txs2.
  induction txs1 as [ | tx rest IH]; intros i receipts allLogs st.
  - cbn. now rewrite Z.add_0_r.
  - cbn [app Process_loop length].
    destruct (ApplyTransaction _ _ header tx cfg _) as [[r | e] st2].
    + rewrite IH.
      destruct (Process_loop fp block header cfg rest _ _ _ st2)
        as [[[rs ls] | e] st3]; [ | reflexivity].
      f_equal. lia.
    + reflexivity.
Qed.

(** The outcome of applying transactions depends on the processor through
    its configuration and chain only, and on the block through its header
    only. *)
Lemma Applied_ext {D : DenyLists} :
  forall fp block fp' block' cfg,
    config fp' = config fp -> bc fp' = bc fp ->
    Block_Header block' = Block_Header block ->
    forall i txs st rs st',
      Applied fp block cfg i txs st rs st' ->
      Applied fp' block' cfg i txs st rs st'.
Proof.
  intros fp block fp' block' cfg Hc Hb Hh i txs st rs st' A.
  induction A as [ | i tx rest st r st1 rs st2 X A IH]; [constructor | ].
  econstructor; [ | exact IH].
  unfold prepared, Block_Number, Block_Hash in *.
  rewrite Hc, Hb, Hh. exact X.
Qed.

(** [Process] returns an error in two cases only: a transaction fails after
    all its predecessors applied, and the error and the state database are
    those of its [ApplyTransaction]; or all transactions apply and
    [Finalize] fails, and the error and the state database are those of
    [Finalize]. *)
Theorem Process_error_sources {D : DenyLists} :
  forall fp block db cfg e db',
    Process fp block db cfg = (Fail e, db') <->
    (exists before tx st st',
        reaches fp block cfg db before tx st /\
        ApplyTransaction (config fp) (bc fp) (Block_Header block) tx cfg
          (prepared fp block (Z.of_nat (length before)) tx st) = (Fail e, st') /\
        db' = statedb st') \/
    (exists receipts st,
        Applied fp block cfg 0 (Block_Transactions block)
                (initial_store block db) receipts st /\
        Finalize (engine fp) (bc fp) (Block_Header block) (statedb st)
                 (Block_Transactions block) receipts (feeAmount st)
          = (Fail e, db')).
Proof.
  intros fp block db cfg e db'. split.
  - unfold Process.
    change (AddGas 0 (Block_GasLimit block)) with (Block_GasLimit block).
    fold (initial_store block db).
    destruct (Process_loop _ _ _ _ _ _ _ _ _) as [[[rs ls] | e0] st] eqn:L.
    + apply Process_loop_Ok in L. destruct L as (new & A & -> & _). cbn [app].
      destruct (Finalize _ _ _ _ _ _ _) as [[i | e1] d] eqn:F; [discriminate | ].
      intros E. injection E as -> ->. right. exists new, st. split; assumption.
    + apply Process_loop_Fail in L.
      destruct L as (before & tx & after & rs & st1 & E & A & F).
      intros E'. injection E' as -> <-. left.
      exists before, tx, st1, st. repeat split.
      * exists after, rs. split; assumption.
      * rewrite Z.add_0_l in F. exact F.
  - intros [(before & tx & st & st' & R & F & ->) | (rs & st & A & F)].
    + exact (Process_aborts R F).
    + unfold Process.
      change (AddGas 0 (Block_GasLimit block)) with (Block_GasLimit block).
      fold (initial_store block db).
      assert (L : Process_loop fp block (Block_Header block) cfg
                    (Block_Transactions block) 0 [] [] (initial_store block db)
                  = (Ok ([] ++ rs, [] ++ concat (map Logs rs)), st)).
      { apply Process_loop_Ok. exists rs. repeat split. exact A. }
      rewrite L. cbn [app]. rewrite F. reflexivity.
Qed.

(** Once a transaction fails, nothing behind it matters: whatever
    transactions follow it in the block and whatever the consensus engine
    is, [Process] returns that transaction's error and the state database
    its [ApplyTransaction] left; [Finalize] has no say. *)
Theorem Process_stops_at_first_failure {D : DenyLists} :
  forall fp block cfg db before tx st e st',
    reaches fp block cfg db before tx st ->
    ApplyTransaction (config fp) (bc fp) (Block_Header block) tx cfg
      (prepared fp block (Z.of_nat (length before)) tx st) = (Fail e, st') ->
    forall after' engine',
      Process (with_engine fp engine')
              (with_transactions block (before ++ tx :: after')) db cfg
      = (Fail e, statedb st').
Proof.
  intros fp block cfg db before tx st e st' (after & rs & E & A) F after' engine'.
  apply (@Process_aborts P C D (with_engine fp engine')
           (with_transactions block (before ++ tx :: after')) cfg db before tx st).
  - exists after', rs. split; [reflexivity | ].
    apply Applied_ext with (fp := fp) (block := block); try reflexivity.
    exact A.
  - exact F.
Qed.

(** A block without transactions: no transaction is applied and the state
    database goes to [Finalize] as it came, with no receipts and a zero fee
    total; [Process] returns no receipts, no logs and zero gas next to the
    reward summary, or the error of [Finalize]. *)
Theorem Process_empty_block {D : DenyLists} :
  forall fp block db cfg,
    Block_Transactions block = [] ->
    Process fp block db cfg =
    match Finalize (engine fp) (bc fp) (Block_Header block) db [] [] 0 with
    | (Fail e, db') => (Fail e, db')
    | (Ok infos, db') => (Ok ([], [], 0, infos), db')
    end.
Proof.
  intros fp block db cfg E. unfold Process. rewrite E. reflexivity.
Qed.

(** ** Gas accounting over a block *)

Lemma uint64_range : forall x, 0 <= uint64 x < 2 ^ 64.
Proof. intros x. unfold uint64. apply Z.mod_pos_bound. lia. Qed.

Lemma uint64_add_l : forall a b, uint64 (uint64 a + b) = uint64 (a + b).
Proof. intros a b. unfold uint64. apply Z.add_mod_idemp_l. lia. Qed.

Lemma gas_sum_cons : forall (r : Receipt) rs,
  gas_sum (r :: rs) = GasUsed r + gas_sum rs.
Proof. reflexivity. Qed.

(** The used-gas counter after a run of transactions, and the cumulative
    gas of each receipt, in [uint64] arithmetic. *)
Lemma Applied_usedGas {D : DenyLists} :
  forall fp block cfg i txs st rs st',
    Applied fp block cfg i txs st rs st' ->
    0 <= usedGas st < 2 ^ 64 ->
    usedGas st' = uint64 (usedGas st + gas_sum rs) /\
    forall k r, nth_error rs k = Some r ->
                CumulativeGasUsed r
                = uint64 (usedGas st + gas_sum (firstn (S k) rs)).
Proof.
  intros fp block cfg i txs st rs st' A.
  induction A as [ | i tx rest st r st1 rs st2 X A IH]; intros Hr.
  - split.
    + unfold gas_sum, uint64. cbn. rewrite Z.add_0_r, Z.mod_small; lia.
    + intros [ | k] r; discriminate.
  - apply ApplyTransaction_Ok_inv in X.
    destruct X as (msg & res & gp1 & db1 & _ & _ & _ & -> & ->).
    cbn [usedGas prepared] in IH.
    destruct (IH (uint64_range _)) as [U K].
    rewrite gas_sum_cons. cbn [receipt_of GasUsed]. split.
    + rewrite U, uint64_add_l. f_equal. lia.
    + intros [ | k] r0 Hk.
      * cbn in Hk. injection Hk as <-. cbn [firstn]. rewrite gas_sum_cons.
        cbn. unfold gas_sum, Zsum. cbn. f_equal. lia.
      * cbn [nth_error] in Hk. rewrite (K k r0 Hk), uint64_add_l.
        change (firstn (S (S k)) (?x :: rs)) with (x :: firstn (S k) rs).
        rewrite gas_sum_cons. cbn [receipt_of GasUsed]. f_equal. lia.
Qed.

(** The gas that [Process] returns is the sum of the gas used recorded in
    the receipts, modulo 2^64; there is one receipt per transaction; the
    cumulative gas of the receipt of index [k] is the sum of the gas used of
    the receipts up to [k], modulo 2^64; hence the gas returned is the
    cumulative gas of the last receipt. *)
Theorem Process_cumulative_gas {D : DenyLists} :
  forall fp block db cfg receipts allLogs gas infos db',
    Process fp block db cfg = (Ok (receipts, allLogs, gas, infos), db') ->
    length receipts = length (Block_Transactions block) /\
    gas = uint64 (gas_sum receipts) /\
    (forall k r, nth_error receipts k = Some r ->
                 CumulativeGasUsed r = uint64 (gas_sum (firstn (S k) receipts))) /\
    (forall r, nth_error receipts (length receipts - 1) = Some r ->
               gas = CumulativeGasUsed r).
Proof.
  intros fp block db cfg receipts allLogs gas infos db' E.
  apply Process_Ok in E. destruct E as (st & A & _ & -> & _).
  assert (R : 0 <= usedGas (initial_store block db) < 2 ^ 64) by (cbn; lia).
  destruct (Applied_usedGas A R) as [U K]. cbn [usedGas initial_store] in U, K.
  split; [exact (Applied_length A) | ].
  split; [exact U | ]. split; [exact K | ].
  intros r Hr. rewrite U, (K _ _ Hr).
  assert (L : (length receipts <> 0)%nat).
  { intros Z0. apply length_zero_iff_nil in Z0. subst receipts. discriminate Hr. }
  replace (S (length receipts - 1)) with (length receipts) by lia.
  now rewrite firstn_all.
Qed.

(** [ApplyTransaction] adds to the used-gas counter without a check: when
    the counter and the gas used are [uint64] values whose sum is not, the
    counter wraps around, and the receipt's cumulative gas is smaller than
    the counter was. *)
Theorem ApplyTransaction_usedGas_wraps {D : DenyLists} :
  forall config bc header tx cfg st r st',
    ApplyTransaction config bc header tx cfg st = (Ok r, st') ->
    0 <= usedGas st <= MaxUint64 ->
    0 <= GasUsed r <= MaxUint64 ->
    MaxUint64 < usedGas st + GasUsed r ->
    usedGas st' = usedGas st + GasUsed r - 2 ^ 64 /\
    CumulativeGasUsed r = usedGas st' /\
    CumulativeGasUsed r < usedGas st.
Proof.
  intros config0 bc0 header tx cfg st r st' X Hu Hg Ho.
  apply ApplyTransaction_Ok_inv in X.
  destruct X as (msg & res & gp1 & db1 & _ & _ & _ & -> & ->).
  cbn [receipt_of GasUsed CumulativeGasUsed usedGas] in *.
  assert (W : uint64 (usedGas st + UsedGas res)
              = usedGas st + UsedGas res - 2 ^ 64).
  { unfold uint64, MaxUint64 in *.
    replace (usedGas st + UsedGas res)
      with (usedGas st + UsedGas res - 2 ^ 64 + 1 * 2 ^ 64) at 1 by lia.
    rewrite Z_mod_plus_full. apply Z.mod_small. lia. }
  rewrite W. unfold MaxUint64 in *. repeat split; lia.
Qed.

(** When the executor debits the gas pool by the gas it reports as used,
    the pool and the used-gas counter always add up to what they added up
    to before, so nothing wraps around. *)
Lemma Applied_gas_invariant {D : DenyLists} :
  executor_debits ->
  forall fp block cfg i txs st rs st',
    Applied fp block cfg i txs st rs st' ->
    0 <= gp st -> 0 <= usedGas st -> gp st + usedGas st <= MaxUint64 ->
    gp st' + usedGas st' = gp st + usedGas st /\
    0 <= gp st' /\
    usedGas st' = usedGas st + gas_sum rs /\
    Forall (fun r => 0 <= GasUsed r /\
                     usedGas st <= CumulativeGasUsed r <= usedGas st') rs.
Proof.
  intros Hd fp block cfg i txs st rs st' A.
  induction A as [ | i tx rest st r st1 rs st2 X A IH]; intros Hg Hu Hs.
  - unfold gas_sum, Zsum. cbn. repeat split; try lia. constructor.
  - apply ApplyTransaction_Ok_inv in X.
    destruct X as (msg & res & gp1 & db1 & _ & _ & X & -> & ->).
    cbn [gp statedb usedGas prepared] in *.
    destruct (Hd _ _ _ _ _ _ _ Hg X) as [Hres ->].
    assert (W : uint64 (usedGas st + UsedGas res) = usedGas st + UsedGas res).
    { unfold uint64, MaxUint64 in *. apply Z.mod_small. lia. }
    rewrite W in *.
    destruct IH as (I1 & I2 & I3 & I4); try lia.
    rewrite gas_sum_cons. cbn [receipt_of GasUsed].
    repeat split; try lia.
    constructor.
    + cbn [receipt_of GasUsed CumulativeGasUsed]. unfold gas_sum in *.
      assert (0 <= Zsum (map GasUsed rs)).
      { clear - I4. induction I4 as [ | r rs [H _] _ IH]; cbn; [lia | ].
        unfold Zsum in *. cbn. lia. }
      lia.
    + eapply Forall_impl; [ | exact I4]. cbn. intros r0 H. lia.
Qed.

(** When the executor debits the gas pool by the gas it reports as used and
    the block's gas limit is a [uint64], the gas that [Process] returns is
    the plain sum of the gas used of the receipts, it is at most the block's
    gas limit, and so is the cumulative gas of every receipt. *)
Theorem Process_gas_within_limit {D : DenyLists} :
  executor_debits ->
  forall fp block db cfg receipts allLogs gas infos db',
    0 <= GasLimit (Block_Header block) <= MaxUint64 ->
    Process fp block db cfg = (Ok (receipts, allLogs, gas, infos), db') ->
    gas = gas_sum receipts /\
    0 <= gas <= GasLimit (Block_Header block) /\
    Forall (fun r => 0 <= GasUsed r /\
                     0 <= CumulativeGasUsed r <= GasLimit (Block_Header block))
           receipts.
Proof.
  intros Hd fp block db cfg receipts allLogs gas infos db' Hl E.
  apply Process_Ok in E. destruct E as (st & A & _ & -> & _).
  destruct (Applied_gas_invariant Hd A) as (I1 & I2 & I3 & I4);
    cbn [gp usedGas initial_store]; unfold Block_GasLimit; try lia.
  cbn [gp usedGas initial_store] in *. unfold Block_GasLimit in *.
  split; [lia | ]. split.
  - assert (0 <= gas_sum receipts).
    { clear - I4. unfold gas_sum.
      induction I4 as [ | r rs [H _] _ IH]; cbn; [lia | ].
      unfold Zsum in *. cbn. lia. }
    lia.
  - eapply Forall_impl; [ | exact I4]. cbn. intros r H. lia.
Qed.


(** ** What every receipt of a block carries *)

Lemma Applied_receipts {D : DenyLists} :
  forall fp block cfg i txs st rs st',
    Applied fp block cfg i txs st rs st' ->
    Forall (fun r =>
              BlockNumber r = Some (Number (Block_Header block)) /\
              PostState r = [] /\
              (Status r = ReceiptStatusFailed \/ Status r = ReceiptStatusSuccessful))
           rs /\
    (keeps_BlockHash ->
     Forall (fun r => BlockHash_ r = HeaderHash (Block_Header block)) rs).
Proof.
  induction 1 as [ | i tx rest st r st1 rs st2 X A [IH1 IH2]].
  - split; constructor.
  - apply ApplyTransaction_Ok_inv in X.
    destruct X as (msg & res & gp1 & db1 & _ & _ & X & -> & _).
    split.
    + constructor; [ | exact IH1]. cbn. repeat split.
      destruct (Failed res); [left | right]; reflexivity.
    + intros K. constructor; [ | exact (IH2 K)].
      cbn [receipt_of BlockHash_]. rewrite (BlockHash_Finalise K).
      pose proof (BlockHash_ApplyMessage K
                    (NewEVM (NewEVMContext msg (Block_Header block) (bc fp))
                            (config fp) cfg)
                    msg (gp (prepared fp block i tx st))
                    (statedb (prepared fp block i tx st))) as T.
      rewrite X in T. cbn [snd] in T. rewrite T.
      unfold prepared. cbn [statedb]. apply (BlockHash_Prepare K).
Qed.

(** Every receipt that [Process] returns carries the number of the block's
    header, an empty post-state root (no intermediate root is ever
    computed) and one of the two status values; when the state database
    keeps the block hash that [Prepare] stamped, every receipt carries the
    hash of the block as well. *)
Theorem Process_receipts_stamped {D : DenyLists} :
  forall fp block db cfg receipts allLogs gas infos db',
    Process fp block db cfg = (Ok (receipts, allLogs, gas, infos), db') ->
    Forall (fun r =>
              BlockNumber r = Some (Number (Block_Header block)) /\
              PostState r = [] /\
              (Status r = ReceiptStatusFailed \/ Status r = ReceiptStatusSuccessful))
           receipts /\
    (keeps_BlockHash ->
     Forall (fun r => BlockHash_ r = HeaderHash (Block_Header block)) receipts).
Proof.
  intros fp block db cfg receipts allLogs gas infos db' E.
  apply Process_Ok in E. destruct E as (st & A & _).
  exact (Applied_receipts A).
Qed.

(** ** The read-only executor next to the transaction executor *)

(** For a sender that the two gates treat alike (any sender up to [H2]),
    [ReadTransaction] is the executor call of [ApplyTransaction] on a full
    gas pool: it fails with the same error and the same state database, and
    when [ApplyTransaction] succeeds it returns the gas used that the
    receipt records and leaves the state database that [ApplyTransaction]
    goes on to finalise.  The used-gas counter and the fee accumulator make
    no difference. *)
Theorem ReadTransaction_matches_ApplyTransaction {D : DenyLists} :
  forall config bc db header tx cfg used fee,
    read_gate (Number header) (From (recovered config header tx))
    = policy_gate (Number header) (From (recovered config header tx)) ->
    (forall e st',
        ApplyTransaction config bc header tx cfg
          {| gp := MaxUint64; statedb := db; usedGas := used; feeAmount := fee |}
          = (Fail e, st') ->
        ReadTransaction config bc db header tx cfg = (Fail e, statedb st')) /\
    (forall r st',
        ApplyTransaction config bc header tx cfg
          {| gp := MaxUint64; statedb := db; usedGas := used; feeAmount := fee |}
          = (Ok r, st') ->
        exists ret db1,
          ReadTransaction config bc db header tx cfg = (Ok (ret, GasUsed r), db1) /\
          statedb st' = Finalise true db1).
Proof.
  intros config0 bc0 db header tx cfg used fee G.
  rewrite ReadTransaction_paths, ApplyTransaction_paths. cbn zeta.
  destruct (snd (AsMessage tx (MakeSigner config0 (Number header)))) as [e0 | ].
  { split.
    - intros e st' E. injection E as <- <-. reflexivity.
    - intros r st' E. discriminate E. }
  rewrite G.
  destruct (policy_gate _ _) as [e0 | ].
  { split.
    - intros e st' E. injection E as <- <-. reflexivity.
    - intros r st' E. discriminate E. }
  unfold simulate. cbn [gp statedb].
  change (NewEVMContext (message_copy (recovered config0 header tx)) header bc0)
    with (NewEVMContext (recovered config0 header tx) header bc0).
  destruct (ApplyMessage _ _ MaxUint64 db) as [[[res | e0] gp1] db1].
  - split.
    + intros e st' E. discriminate E.
    + intros r st' E. injection E as <- <-. exists (ReturnData res), db1.
      split; reflexivity.
  - split.
    + intros e st' E. injection E as <- <-. reflexivity.
    + intros r st' E. discriminate E.
Qed.


(** ** The fee total *)

Lemma gas_fees_nonnegative :
  forall config header txs rs,
    Forall (fun tx => 0 <= GasPrice (recovered config header tx)) txs ->
    Forall (fun r : Receipt => 0 <= GasUsed r) rs ->
    0 <= gas_fees config header txs rs.
Proof.
  intros config0 header txs. unfold gas_fees, Zsum.
  induction txs as [ | tx txs IH]; intros rs Ht Hr; [cbn; lia | ].
  destruct rs as [ | r rs]; [cbn; lia | ].
  inversion Ht; subst. inversion Hr; subst. cbn.
  specialize (IH rs ltac:(assumption) ltac:(assumption)). nia.
Qed.

Lemma explicit_fees_nonnegative :
  forall config header txs,
    Forall (fun tx => 0 <= explicit_fee (recovered config header tx)) txs ->
    0 <= explicit_fees config header txs.
Proof.
  intros config0 header txs. unfold explicit_fees, Zsum.
  induction 1; cbn; lia.
Qed.

(** When the executor reports no negative gas use (it debits the pool by
    what it reports) and no transaction of the block has a negative gas
    price or a negative explicit fee, the fee total that [Process] hands to
    [Finalize] is not negative. *)
Theorem Process_fee_total_nonnegative {D : DenyLists} :
  executor_debits ->
  forall fp block db cfg receipts allLogs gas infos db',
    0 <= GasLimit (Block_Header block) <= MaxUint64 ->
    Forall (fun tx =>
              0 <= GasPrice (recovered (config fp) (Block_Header block) tx) /\
              0 <= explicit_fee (recovered (config fp) (Block_Header block) tx))
           (Block_Transactions block) ->
    Process fp block db cfg = (Ok (receipts, allLogs, gas, infos), db') ->
    exists db1 fee,
      Finalize (engine fp) (bc fp) (Block_Header block) db1
               (Block_Transactions block) receipts fee = (Ok infos, db') /\
      0 <= fee.
Proof.
  intros Hd fp block db cfg receipts allLogs gas infos db' Hl Ht E.
  apply Process_Ok in E. destruct E as (st & A & _ & _ & F).
  exists (statedb st), (feeAmount st). split; [exact F | ].
  rewrite (Applied_feeAmount A). cbn [feeAmount initial_store].
  destruct (Applied_gas_invariant Hd A) as (_ & _ & _ & I);
    cbn [gp usedGas initial_store]; unfold Block_GasLimit; try lia.
  assert (G : 0 <= gas_fees (config fp) (Block_Header block)
                            (Block_Transactions block) receipts).
  { apply gas_fees_nonnegative.
    - eapply Forall_impl; [ | exact Ht]. cbn. intros tx H. apply H.
    - eapply Forall_impl; [ | exact I]. cbn. intros r H. apply H. }
  assert (X : 0 <= explicit_fees (config fp) (Block_Header block)
                                 (Block_Transactions block)).
  { apply explicit_fees_nonnegative.
    eapply Forall_impl; [ | exact Ht]. cbn. intros tx H. apply H. }
  lia.
Qed.


(** ** The deny lists and the read-only executor *)

(** [ReadTransaction] never consults the second deny list: whatever the
    height, its outcome is the same under any two pairs of deny lists that
    share the first list; and up to [H1] it consults neither. *)
Theorem ReadTransaction_deny_lists :
  (forall (D D' : DenyLists) config bc db header tx cfg,
      (forall a, @ForbidAddress P D a = @ForbidAddress P D' a) ->
      @ReadTransaction P C D config bc db header tx cfg =
      @ReadTransaction P C D' config bc db header tx cfg) /\
  (forall (D D' : DenyLists) config bc db header tx cfg,
      Number header <= H1 ->
      @ReadTransaction P C D config bc db header tx cfg =
      @ReadTransaction P C D' config bc db header tx cfg).
Proof.
  split.
  - intros D D' config0 bc0 db header tx cfg HF.
    rewrite !ReadTransaction_paths. unfold read_gate. rewrite HF. reflexivity.
  - intros D D' config0 bc0 db header tx cfg Hh.
    rewrite !ReadTransaction_paths. unfold read_gate.
    destruct (Z.ltb_spec H1 (Number header)); [lia | reflexivity].
Qed.

End Further.

(** * Properties of the light-client lookups *)

Section LesProperties.
Context {P : Primitives} {C : Collaborators} {R : RpcNumbers}.
Variable Ctx : Type.

(** On the light client the pending block is the latest one: header, block
    and state asked for at [rpc.PendingBlockNumber] are those asked for at
    [rpc.LatestBlockNumber]; they come from the chain's current header, and
    the on-demand lookup by number has no part in them. *)
Theorem Les_pending_is_latest :
  forall (b : LesApiBackend Ctx) ctx,
    HeaderByNumber b ctx PendingBlockNumber = (CurrentHeader b, None) /\
    HeaderByNumber b ctx LatestBlockNumber = (CurrentHeader b, None) /\
    BlockByNumber b ctx PendingBlockNumber = BlockByNumber b ctx LatestBlockNumber /\
    StateAndHeaderByNumber b ctx PendingBlockNumber
    = StateAndHeaderByNumber b ctx LatestBlockNumber /\
    forall byNumber,
      BlockByNumber (with_lookups b byNumber) ctx LatestBlockNumber
      = BlockByNumber b ctx LatestBlockNumber /\
      StateAndHeaderByNumber (with_lookups b byNumber) ctx LatestBlockNumber
      = StateAndHeaderByNumber b ctx LatestBlockNumber.
Proof.
  intros b ctx.
  assert (HP : forall b', HeaderByNumber b' ctx PendingBlockNumber
                          = (CurrentHeader b', None)).
  { intros b'. unfold HeaderByNumber.
    now rewrite (Z.eqb_refl PendingBlockNumber), orb_true_r. }
  assert (HL : forall b', HeaderByNumber b' ctx LatestBlockNumber
                          = (CurrentHeader b', None)).
  { intros b'. unfold HeaderByNumber. now rewrite (Z.eqb_refl LatestBlockNumber). }
  split; [apply HP | ]. split; [apply HL | ].
  unfold BlockByNumber, StateAndHeaderByNumber.
  rewrite HP, HL. split; [reflexivity | ]. split; [reflexivity | ].
  intros byNumber. rewrite HL. split; reflexivity.
Qed.

(** A block number that is neither of the two distinguished ones is looked
    up on demand at its conversion to [uint64]: at itself when it is not
    negative, at itself plus 2^64 when it is. *)
Theorem Les_HeaderByNumber_conversion :
  forall (b : LesApiBackend Ctx) ctx blockNr,
    blockNr <> LatestBlockNumber ->
    blockNr <> PendingBlockNumber ->
    - 2 ^ 63 <= blockNr < 2 ^ 63 ->
    HeaderByNumber b ctx blockNr =
    GetHeaderByNumberOdr b ctx (if blockNr <? 0 then blockNr + 2 ^ 64 else blockNr).
Proof.
  intros b ctx blockNr HL HP Hr. unfold HeaderByNumber.
  destruct (Z.eqb_spec blockNr LatestBlockNumber); [contradiction | ].
  destruct (Z.eqb_spec blockNr PendingBlockNumber); [contradiction | ].
  cbn [orb]. f_equal. unfold uint64.
  destruct (Z.ltb_spec blockNr 0).
  - replace blockNr with (blockNr + 2 ^ 64 + (-1) * 2 ^ 64) at 1 by lia.
    rewrite Z_mod_plus_full. apply Z.mod_small. lia.
  - apply Z.mod_small. lia.
Qed.

(** [StateAndHeaderByNumber] returns a state exactly when it returns a
    header, and then no error: the header is the one [HeaderByNumber] found
    without error, the state is built on it, and [BlockByNumber] looks the
    block up under that header's hash.  Otherwise both return nothing next
    to the error of [HeaderByNumber], which is nil when the header is just
    missing. *)
Theorem Les_state_and_block_follow_header :
  forall (b : LesApiBackend Ctx) ctx blockNr s h e,
    StateAndHeaderByNumber b ctx blockNr = (s, h, e) ->
    match h with
    | Some header =>
      s = Some (light_NewState b ctx header) /\ e = None /\
      HeaderByNumber b ctx blockNr = (Some header, None) /\
      BlockByNumber b ctx blockNr = GetBlockByHash b ctx (HeaderHash header)
    | None =>
      s = None /\
      e = snd (HeaderByNumber b ctx blockNr) /\
      (fst (HeaderByNumber b ctx blockNr) = None \/ e <> None) /\
      BlockByNumber b ctx blockNr = (None, e)
    end.
Proof.
  intros b ctx blockNr s h e.
  unfold StateAndHeaderByNumber, BlockByNumber, GetBlock.
  destruct (HeaderByNumber b ctx blockNr) as [[header | ] [err | ]];
    intros E; injection E as <- <- <-; cbn [fst snd].
  - repeat split. right. discriminate.
  - repeat split.
  - repeat split. left. reflexivity.
  - repeat split. left. reflexivity.
Qed.

End LesProperties.

(** * The further properties on the miniature chain *)

(** The executor of the miniature chain debits the pool by the flat 21000
    gas it reports. *)
Lemma Mini_executor_debits : executor_debits.
Proof.
  intros vmenv msg g s res g1 s1 Hg. cbn. unfold Mini.applyMessage.
  destruct (CheckNonce msg && _); [discriminate | ].
  destruct (Z.ltb_spec g (Gas msg)); [discriminate | ].
  destruct (Z.ltb_spec (Gas msg) 21000); [discriminate | ].
  destruct (Mini.reverts (Data msg)); intros E; injection E as <- <- _;
    cbn; split; [lia | reflexivity | lia | reflexivity].
Qed.

(** The state database of the miniature chain keeps the stamped block
    hash. *)
Lemma Mini_keeps_BlockHash : keeps_BlockHash.
Proof.
  split.
  - reflexivity.
  - intros vmenv msg g s. cbn. unfold Mini.applyMessage.
    destruct (CheckNonce msg && _); [reflexivity | ].
    destruct (g <? Gas msg); [reflexivity | ].
    destruct (Gas msg <? 21000); [reflexivity | ].
    destruct (Mini.reverts (Data msg)); reflexivity.
  - reflexivity.
Qed.

(** The block whose only transaction has a negative gas price fails in
    [Finalize], after the transaction applied. *)
Lemma Process_error_sources_witness :
  exists db',
    Process Mini.processor Mini.block_rebate Mini.genesis tt
      = (Fail Mini.NegativeFees, db') /\
    exists receipts st,
      Applied Mini.processor Mini.block_rebate tt 0
              (Block_Transactions Mini.block_rebate)
              (initial_store Mini.block_rebate Mini.genesis) receipts st /\
      Finalize (engine Mini.processor) (bc Mini.processor)
               (Block_Header Mini.block_rebate) (statedb st)
               (Block_Transactions Mini.block_rebate) receipts (feeAmount st)
        = (Fail Mini.NegativeFees, db') /\
      feeAmount st = -21000.
Proof.
  eexists.
  assert (E : Process Mini.processor Mini.block_rebate Mini.genesis tt
              = (Fail Mini.NegativeFees, _)) by (vm_compute; reflexivity).
  split; [exact E | ].
  destruct (proj1 (Process_error_sources Mini.processor Mini.block_rebate
                     Mini.genesis tt _ _) E)
    as [(before & tx & st & st' & (after & rs & S & A) & F & _)
       | (receipts & st & A & F)].
  - exfalso. destruct before as [ | t0 [ | t1 before]]; cbn in S.
    + injection S as <- <-. inversion A; subst. vm_compute in F. discriminate F.
    + injection S as _ S. discriminate S.
    + injection S as _ S. discriminate S.
  - exists receipts, st. split; [exact A | ]. split; [exact F | ].
    inversion A as [ | i tx rest st0 r st1 rs st2 X A']; subst.
    inversion A'; subst. vm_compute in X. injection X as _ <-. reflexivity.
Defined.

(** The small block fails at the hungry transfer whatever follows it and
    whatever the engine. *)
Lemma Process_stops_at_first_failure_witness :
  Process (with_engine Mini.processor Mini.strike)
          (with_transactions Mini.block_small
             ([Mini.transfer] ++ Mini.hungry :: [Mini.creation; Mini.reverting]))
          Mini.genesis tt
    = (Fail Mini.GasLimitReached, Mini.prepare 207 9050 1 Mini.after_transfer).
Proof.
  refine (Process_stops_at_first_failure
            (fp := Mini.processor) (block := Mini.block_small) (cfg := tt)
            (db := Mini.genesis) (before := [Mini.transfer]) (tx := Mini.hungry)
            (st := Mini.store_after_transfer 50000)
            (e := Mini.GasLimitReached)
            (st' := {| gp := 29000;
                       statedb := Mini.prepare 207 9050 1 Mini.after_transfer;
                       usedGas := 21000; feeAmount := 42003 |})
            _ _ [Mini.creation; Mini.reverting] Mini.strike).
  - exists []. eexists. split; [reflexivity | ].
    econstructor; [reflexivity | constructor].
  - reflexivity.
Defined.

(** The empty block goes straight to the engine. *)
Lemma Process_empty_block_witness :
  Process Mini.processor Mini.block_empty Mini.genesis tt
    = (Ok ([], [], 0, 0), Mini.genesis).
Proof.
  exact (eq_trans (Process_empty_block Mini.processor Mini.block_empty
                     Mini.genesis tt eq_refl) eq_refl).
Defined.

(** The three receipts of the legacy block record 21000 gas each, and
    cumulatively 21000, 42000 and 63000, the gas returned. *)
Lemma Process_cumulative_gas_witness :
  exists receipts allLogs gas infos db',
    Process Mini.processor Mini.block_legacy Mini.genesis tt
      = (Ok (receipts, allLogs, gas, infos), db') /\
    length receipts = 3%nat /\
    gas = uint64 (gas_sum receipts) /\
    map CumulativeGasUsed receipts = [21000; 42000; 63000] /\
    (forall k r, nth_error receipts k = Some r ->
                 CumulativeGasUsed r = uint64 (gas_sum (firstn (S k) receipts))) /\
    (forall r, nth_error receipts (length receipts - 1) = Some r ->
               gas = CumulativeGasUsed r).
Proof.
  eexists _, _, _, _, _.
  assert (E : Process Mini.processor Mini.block_legacy Mini.genesis tt
              = (Ok (_, _, _, _), _)) by (vm_compute; reflexivity).
  split; [exact E | ].
  destruct (Process_cumulative_gas _ _ _ _ E) as (L & G & K & T).
  split; [exact L | ]. split; [exact G | ].
  split; [reflexivity | ]. split; [exact K | exact T].
Defined.

(** With the counter 100 short of the largest [uint64], the transfer's
    21000 gas wrap it around to 20899. *)
Lemma ApplyTransaction_usedGas_wraps_witness :
  exists r st',
    ApplyTransaction Mini.tip10 tt (Mini.header_at 50 100000) Mini.transfer tt
                     Mini.store_nearly_full = (Ok r, st') /\
    usedGas st' = 20899 /\ CumulativeGasUsed r = 20899 /\
    CumulativeGasUsed r < usedGas Mini.store_nearly_full.
Proof.
  eexists _, _.
  assert (E : ApplyTransaction Mini.tip10 tt (Mini.header_at 50 100000)
                Mini.transfer tt Mini.store_nearly_full = (Ok _, _))
    by (vm_compute; reflexivity).
  split; [exact E | ].
  assert (H1 : 0 <= usedGas Mini.store_nearly_full <= MaxUint64)
    by (vm_compute; split; discriminate).
  destruct (ApplyTransaction_usedGas_wraps _ _ _ _ _ _ E H1) as (U & K & L).
  - vm_compute. split; discriminate.
  - vm_compute. reflexivity.
  - split; [rewrite U; reflexivity | ]. split; [rewrite K, U; reflexivity | exact L].
Defined.

(** The legacy block uses 63000 of its 100000 gas. *)
Lemma Process_gas_within_limit_witness :
  exists receipts allLogs gas infos db',
    Process Mini.processor Mini.block_legacy Mini.genesis tt
      = (Ok (receipts, allLogs, gas, infos), db') /\
    gas = gas_sum receipts /\
    0 <= gas <= 100000 /\
    Forall (fun r => 0 <= GasUsed r /\ 0 <= CumulativeGasUsed r <= 100000)
           receipts.
Proof.
  eexists _, _, _, _, _.
  assert (E : Process Mini.processor Mini.block_legacy Mini.genesis tt
              = (Ok (_, _, _, _), _)) by (vm_compute; reflexivity).
  split; [exact E | ].
  assert (L : 0 <= GasLimit (Block_Header Mini.block_legacy) <= MaxUint64)
    by (vm_compute; split; discriminate).
  exact (Process_gas_within_limit Mini_executor_debits Mini.processor
           Mini.block_legacy Mini.genesis tt L E).
Defined.

(** The receipts of the legacy block carry its number 50 and its hash
    9050. *)
Lemma Process_receipts_stamped_witness :
  exists receipts allLogs gas infos db',
    Process Mini.processor Mini.block_legacy Mini.genesis tt
      = (Ok (receipts, allLogs, gas, infos), db') /\
    Forall (fun r =>
              BlockNumber r = Some 50 /\ PostState r = [] /\
              (Status r = ReceiptStatusFailed \/ Status r = ReceiptStatusSuccessful))
           receipts /\
    Forall (fun r => BlockHash_ r = 9050) receipts.
Proof.
  eexists _, _, _, _, _.
  assert (E : Process Mini.processor Mini.block_legacy Mini.genesis tt
              = (Ok (_, _, _, _), _)) by (vm_compute; reflexivity).
  split; [exact E | ].
  destruct (Process_receipts_stamped _ _ _ _ E) as [S H].
  split; [exact S | exact (H Mini_keeps_BlockHash)].
Defined.

(** At height 50 the simulated transfer uses the 21000 gas its receipt
    records. *)
Lemma ReadTransaction_matches_ApplyTransaction_witness :
  exists ret db1,
    ReadTransaction Mini.tip10 tt Mini.genesis (Mini.header_at 50 100000)
                    Mini.transfer tt = (Ok (ret, 21000), db1) /\
    Mini.finalise true db1
    = {| Mini.thash := 0; Mini.bhash := 0; Mini.txIndex := 0;
         Mini.logs := [(0, 5)]; Mini.pending := [(1, 1)];
         Mini.committed := [(1, 1)] |}.
Proof.
  assert (E : ApplyTransaction Mini.tip10 tt (Mini.header_at 50 100000)
                Mini.transfer tt
                {| gp := MaxUint64; statedb := Mini.genesis;
                   usedGas := 7; feeAmount := 9 |} = (Ok _, _))
    by (vm_compute; reflexivity).
  destruct (proj2 (@ReadTransaction_matches_ApplyTransaction
                     Mini.prims Mini.collaborators Mini.denyLists
                     Mini.tip10 tt Mini.genesis (Mini.header_at 50 100000)
                     Mini.transfer tt 7 9 eq_refl) _ _ E)
    as (ret & db1 & R & S).
  exists ret, db1. split; [exact R | ]. cbn in S. rewrite <- S. reflexivity.
Defined.

(** No price and no fee of the legacy block is negative, and the engine is
    handed 126003. *)
Lemma Process_fee_total_nonnegative_witness :
  exists receipts allLogs gas infos db' db1 fee,
    Process Mini.processor Mini.block_legacy Mini.genesis tt
      = (Ok (receipts, allLogs, gas, infos), db') /\
    Finalize (engine Mini.processor) (bc Mini.processor)
             (Block_Header Mini.block_legacy) db1
             (Block_Transactions Mini.block_legacy) receipts fee
      = (Ok infos, db') /\
    0 <= fee.
Proof.
  eexists _, _, _, _, _.
  assert (E : Process Mini.processor Mini.block_legacy Mini.genesis tt
              = (Ok (_, _, _, _), _)) by (vm_compute; reflexivity).
  assert (L : 0 <= GasLimit (Block_Header Mini.block_legacy) <= MaxUint64)
    by (vm_compute; split; discriminate).
  assert (T : Forall
                (fun tx =>
                   0 <= GasPrice (recovered (config Mini.processor)
                                            (Block_Header Mini.block_legacy) tx) /\
                   0 <= explicit_fee (recovered (config Mini.processor)
                                                (Block_Header Mini.block_legacy) tx))
                (Block_Transactions Mini.block_legacy))
    by (repeat constructor; vm_compute; discriminate).
  destruct (Process_fee_total_nonnegative Mini_executor_debits Mini.processor
              Mini.block_legacy Mini.genesis tt L T E) as (db1 & fee & F & N).
  exists db1, fee. split; [exact E | ]. split; [exact F | exact N].
Defined.

(** Above [H2] the sender 777, on the second list only, is served with or
    without that list; at [H1] so is the sender 666 with or without any. *)
Lemma ReadTransaction_deny_lists_witness :
  @ReadTransaction _ _ Mini.denyLists Mini.tip10 tt Mini.genesis
     (Mini.header_at 24642001 100000) Mini.denied2 tt =
  @ReadTransaction _ _ Mini.firstListOnly Mini.tip10 tt Mini.genesis
     (Mini.header_at 24642001 100000) Mini.denied2 tt /\
  @ReadTransaction _ _ Mini.denyLists Mini.tip10 tt Mini.genesis
     (Mini.header_at 6638000 100000) Mini.denied1 tt =
  @ReadTransaction _ _ Mini.noDenyLists Mini.tip10 tt Mini.genesis
     (Mini.header_at 6638000 100000) Mini.denied1 tt.
Proof.
  destruct (@ReadTransaction_deny_lists Mini.prims Mini.collaborators)
    as [T1 T2].
  split.
  - apply T1. reflexivity.
  - apply T2. unfold H1. cbn. lia.
Defined.

#[local] Existing Instance Mini.rpcNumbers.

(** On the light chain of the miniature chain, block number -3 is looked up
    at 2^64 - 3, where there is no header. *)
Lemma Les_HeaderByNumber_conversion_witness :
  HeaderByNumber Mini.light tt (-3) = (None, None) /\
  HeaderByNumber Mini.light tt 50 = (Some (Mini.header_at 50 100000), None).
Proof.
  split.
  - refine (eq_trans (Les_HeaderByNumber_conversion Mini.light tt (blockNr := -3)
                        _ _ _) eq_refl).
    + discriminate.
    + discriminate.
    + split; [vm_compute; discriminate | reflexivity].
  - refine (eq_trans (Les_HeaderByNumber_conversion Mini.light tt (blockNr := 50)
                        _ _ _) eq_refl).
    + discriminate.
    + discriminate.
    + split; [vm_compute; discriminate | reflexivity].
Defined.

(** Height 50 has a header and a block; height 200 has neither, and no
    error. *)
Lemma Les_state_and_block_follow_header_witness :
  BlockByNumber Mini.light tt 50 = (Some Mini.block_legacy, None) /\
  BlockByNumber Mini.light tt 200 = (None, None).
Proof.
  split.
  - assert (E : StateAndHeaderByNumber Mini.light tt 50
                = (Some (Mini.prepare 0 9050 0 Mini.genesis),
                   Some (Mini.header_at 50 100000), None)) by reflexivity.
    destruct (Les_state_and_block_follow_header Mini.light tt 50 E)
      as (_ & _ & _ & B).
    rewrite B. reflexivity.
  - assert (E : StateAndHeaderByNumber Mini.light tt 200 = (None, None, None))
      by reflexivity.
    destruct (Les_state_and_block_follow_header Mini.light tt 200 E)
      as (_ & _ & _ & B).
    exact B.
Defined.
